(** * Instruction composition of the Solana distributor client

    A shallow embedding of [SolanaDistributorClient] from
    [packages/distributor/solana/client.ts]: the three [prepare*Instructions]
    methods, the collaborators they await, and the order in which network
    reads happen.

    Integers of the source ([BN] values and the numeric fields turned into
    [BN] with [new BN(x, 10)]) are arbitrary-precision, so they are [Z]; the
    conversion of a [number] is partial, as bn.js asserts that it is safe. *)

From Stdlib Require Import ZArith List String Bool Lia.
Import ListNotations.
Local Open Scope Z_scope.

(** ** Keys, accounts, requests *)

(** A [PublicKey] of [@solana/web3.js]: 32 bytes, read as a number. *)
Definition PublicKey : Type := N.

(** The numbers that [new BN(n, 10)] takes: bn.js asserts that a [number] is
    below 2^53 = 9007199254740992 in absolute value. *)
Definition safeNumber (n : Z) : bool := Z.abs n <? 9007199254740992.
Arguments safeNumber : simpl never.

(** [new BN(n, 10)] on an integer [number]: the integer itself, or nothing
    when the assertion of bn.js fails. *)
Definition BN_of_number (n : Z) : option Z :=
  if safeNumber n then Some n else None.

(** The wallet handed in as [extParams.invoker]; an adapter that is not
    connected has no key. *)
Record Invoker : Type := { publicKey : option PublicKey }.

(** Modelled from the spec: the part of [extParams] that only the
    base-instruction preparer looks at (fee and priority directives); its
    declaration is in [./types] and [@streamflow/common]. *)
Record ITransactionSolanaExt : Type :=
  { computePrice : option Z; computeLimit : option Z }.

Module ICreateSolanaExt.
Record t : Type :=
  { invoker : Invoker; isNative : bool; options : ITransactionSolanaExt }.
End ICreateSolanaExt.

Module IInteractSolanaExt.
Record t : Type := { invoker : Invoker; options : ITransactionSolanaExt }.
End IInteractSolanaExt.

(** [ICreateDistributorData], with the fields the client reads. *)
Module ICreateDistributorData.
Record t : Type :=
  { mint : string;
    version : Z;
    root : list Z;
    maxTotalClaim : Z;
    maxNumNodes : Z;
    unlockPeriod : Z;
    startVestingTs : Z;
    endVestingTs : Z;
    clawbackStartTs : Z;
    claimsClosable : bool }.
End ICreateDistributorData.

Module IClaimData.
Record t : Type :=
  { id : string;
    proof : list (list Z);
    amountUnlocked : Z;
    amountLocked : Z }.
End IClaimData.

Module IClawbackData.
Record t : Type := { id : string }.
End IClawbackData.

(** The decoded distributor account; [startTs] is the vesting start the
    documentation calls startVestingTs. *)
Module MerkleDistributor.
Record t : Type :=
  { mint : PublicKey;
    tokenVault : PublicKey;
    clawbackReceiver : PublicKey;
    unlockPeriod : Z;
    startTs : Z }.
End MerkleDistributor.

(** Modelled from the spec: the claim-status record holds the locked and the
    unlocked amount already claimed; the client only tests its presence. *)
Module ClaimStatus.
Record t : Type := { lockedAmount : Z; unlockedAmount : Z }.
End ClaimStatus.

Record MintAccount : Type := { decimals : Z }.

(** ** Instructions *)

Module NewDistributorArgs.
Record t : Type :=
  { version : Z;
    root : list Z;
    maxTotalClaim : Z;
    maxNumNodes : Z;
    unlockPeriod : Z;
    startVestingTs : Z;
    endVestingTs : Z;
    clawbackStartTs : Z;
    claimsClosable : bool }.
End NewDistributorArgs.

Module NewDistributorAccounts.
Record t : Type :=
  { distributor : PublicKey;
    clawbackReceiver : PublicKey;
    mint : PublicKey;
    tokenVault : PublicKey;
    admin : PublicKey;
    systemProgram : PublicKey;
    associatedTokenProgram : PublicKey;
    tokenProgram : PublicKey }.
End NewDistributorAccounts.

Module NewClaimArgs.
Record t : Type :=
  { amountLocked : Z; amountUnlocked : Z; proof : list (list Z) }.
End NewClaimArgs.

(** [ClaimLockedAccounts | NewClaimAccounts]: one object serves both. *)
Module ClaimAccounts.
Record t : Type :=
  { distributor : PublicKey;
    claimStatus : PublicKey;
    from : PublicKey;
    to : PublicKey;
    claimant : PublicKey;
    mint : PublicKey;
    tokenProgram : PublicKey;
    systemProgram : PublicKey;
    eventAuthority : PublicKey;
    program : PublicKey }.
End ClaimAccounts.

Module ClawbackAccounts.
Record t : Type :=
  { distributor : PublicKey;
    from : PublicKey;
    to : PublicKey;
    admin : PublicKey;
    mint : PublicKey;
    systemProgram : PublicKey;
    tokenProgram : PublicKey }.
End ClawbackAccounts.

(** An instruction built by a collaborator (compute budget, creation of an
    associated token account, wrapping of the native asset): opaque here. *)
Inductive SetupInstruction : Type :=
| OpaqueIx (tag : N).

(** Modelled from the spec: the generated builders of [./generated/instructions]
    and [createTransferCheckedInstruction] encode their arguments in a fixed
    wire format; an instruction is represented by its builder and arguments. *)
Inductive TransactionInstruction : Type :=
| setup (i : SetupInstruction)
| newDistributor (args : NewDistributorArgs.t)
    (accounts : NewDistributorAccounts.t) (programId : PublicKey)
| createTransferCheckedInstruction (source mint destination owner : PublicKey)
    (amount : Z) (decimals : Z) (programId : PublicKey)
| newClaim (args : NewClaimArgs.t) (accounts : ClaimAccounts.t)
    (programId : PublicKey)
| claimLocked (accounts : ClaimAccounts.t) (programId : PublicKey)
| clawback (accounts : ClawbackAccounts.t) (programId : PublicKey).

Definition isNewClaim (ix : TransactionInstruction) : bool :=
  match ix with newClaim _ _ _ => true | _ => false end.

Definition isClaimLocked (ix : TransactionInstruction) : bool :=
  match ix with claimLocked _ _ => true | _ => false end.

Definition isClaimInstruction (ix : TransactionInstruction) : bool :=
  isNewClaim ix || isClaimLocked ix.

Definition isSetup (ix : TransactionInstruction) : bool :=
  match ix with setup _ => true | _ => false end.

(** ** Asynchronous computations

    A method of the client is a sequence of awaits.  Its model returns the
    network reads it performed, in order, and how it ended. *)

Inductive NetCall : Type :=
| NetGetMintAndProgram (mint : PublicKey)
| NetFetchDistributor (address : PublicKey)
| NetFetchClaimStatus (address : PublicKey)
| NetCheckOrCreateAta (owners : list PublicKey) (mint : PublicKey)
| NetPrepareWrappedAccount (owner : PublicKey).

Inductive Exn : Type :=
| Thrown (message : string)    (* [throw new Error(message)] of client.ts *)
| Upstream (reason : string).  (* raised inside an awaited collaborator *)

Definition Async (A : Type) : Type := (list NetCall * (Exn + A))%type.

Definition ret {A : Type} (a : A) : Async A := ([], inr a).

Definition throw {A : Type} (e : Exn) : Async A := ([], inl e).

Definition bind {A B : Type} (m : Async A) (k : A -> Async B) : Async B :=
  match m with
  | (t, inl e) => (t, inl e)
  | (t, inr a) => let (t', r) := k a in (t ++ t', r)
  end.

Declare Scope async_scope.
Delimit Scope async_scope with async.
Notation "x <- m ;; k" := (bind m (fun x => k))
  (at level 100, m at next level, right associativity) : async_scope.
Notation "' p <- m ;; k" := (bind m (fun x => let 'p := x in k))
  (at level 100, p pattern, m at next level, right associativity) : async_scope.
Local Open Scope async_scope.

Definition trace {A : Type} (m : Async A) : list NetCall := fst m.
Definition outcome {A : Type} (m : Async A) : Exn + A := snd m.

(** What a network read answers: a value, or a failure with its reason. *)
Inductive Reply (A : Type) : Type :=
| Failed (reason : string)
| Got (a : A).
Arguments Failed {A} reason.
Arguments Got {A} a.

Definition await {A : Type} (c : NetCall) (r : Reply A) : Async A :=
  ([c], match r with Failed s => inl (Upstream s) | Got a => inr a end).

(** Modelled from the spec: the collaborators that read the cluster
    ([MerkleDistributor.fetch] and [ClaimStatus.fetch] of [./generated/accounts],
    [getMintAndProgram], [checkOrCreateAtaBatch] and [prepareWrappedAccount] of
    [@streamflow/common/solana]) are not in the sources; a [Connection] holds
    what the cluster answers to each: a value, an absent account where the
    fetch returns null, or a failure. *)
Record Connection : Type :=
  { mintAndProgram : PublicKey -> Reply (MintAccount * PublicKey);
    distributorAccount : PublicKey -> Reply (option MerkleDistributor.t);
    claimStatusAccount : PublicKey -> Reply (option ClaimStatus.t);
    ataBatch : list PublicKey -> PublicKey -> Invoker -> PublicKey ->
               Reply (list SetupInstruction);
    wrappedAccount : PublicKey -> Z -> Reply (list SetupInstruction) }.

(** Modelled from the spec: the collaborators that compute without the
    network.  The three address derivations of [./utils] are stateless
    functions of (program id, mint, version), of (program id, distributor,
    claimant) and of (program id); their seed layout is not in the sources.
    With them come key parsing and the constants of the libraries, [ata] and
    the base-instruction preparer of [@streamflow/common/solana]. *)
Record Externals : Type :=
  { newPublicKey : string -> option PublicKey;
    NATIVE_MINT : PublicKey;
    SystemProgram_programId : PublicKey;
    ASSOCIATED_TOKEN_PROGRAM_ID : PublicKey;
    getDistributorPda : PublicKey -> PublicKey -> Z -> PublicKey;
    getClaimantStatusPda : PublicKey -> PublicKey -> PublicKey -> PublicKey;
    getEventAuthorityPda : PublicKey -> PublicKey;
    ata : PublicKey -> PublicKey -> PublicKey -> PublicKey;
    prepareBaseInstructions : ITransactionSolanaExt -> list SetupInstruction }.

Record SolanaDistributorClient : Type :=
  { connection : Connection; programId : PublicKey }.

Definition invokerKeyMissing : string :=
  "Invoker's PublicKey is not available, check passed wallet adapter!"%string.
Definition unlockPeriodTooLong : string :=
  "The unlock period cannot be longer than the total vesting duration!"%string.
Definition accountInfoMissing : string := "Couldn't get account info"%string.
(** Stands for the error of [new PublicKey(s)] on a string that is no key;
    the library words it differently from input to input, and nothing below
    depends on the wording. *)
Definition invalidPublicKey : string := "Invalid public key input"%string.
(** The error of a failed [assert] of bn.js. *)
Definition assertionFailed : string := "Assertion failed"%string.

(** The [InvalidInput] conditions of the documentation: a missing invoker key
    or an unlock period longer than the vesting window. *)
Definition isInvalidInput (e : Exn) : bool :=
  match e with
  | Thrown m => String.eqb m invokerKeyMissing || String.eqb m unlockPeriodTooLong
  | Upstream _ => false
  end.

(** ** The collaborators that go to the network *)

Definition getMintAndProgram (conn : Connection) (mint : PublicKey)
  : Async (MintAccount * PublicKey) :=
  await (NetGetMintAndProgram mint) (mintAndProgram conn mint).

Definition MerkleDistributor_fetch (conn : Connection) (address : PublicKey)
  : Async (option MerkleDistributor.t) :=
  await (NetFetchDistributor address) (distributorAccount conn address).

Definition ClaimStatus_fetch (conn : Connection) (address : PublicKey)
  : Async (option ClaimStatus.t) :=
  await (NetFetchClaimStatus address) (claimStatusAccount conn address).

Definition checkOrCreateAtaBatch (conn : Connection) (owners : list PublicKey)
    (mint : PublicKey) (invoker : Invoker) (tokenProgramId : PublicKey)
  : Async (list SetupInstruction) :=
  await (NetCheckOrCreateAta owners mint)
        (ataBatch conn owners mint invoker tokenProgramId).

Definition prepareWrappedAccount (conn : Connection) (owner : PublicKey)
    (amount : Z) : Async (list SetupInstruction) :=
  await (NetPrepareWrappedAccount owner) (wrappedAccount conn owner amount).

(** [new BN(n, 10)] as a step of a method: it throws on an unsafe number. *)
Definition newBN (n : Z) : Async Z :=
  match BN_of_number n with
  | Some b => ret b
  | None => throw (Upstream assertionFailed)
  end.

(** [Math.floor(Date.now() / 1000)], the clock being read in milliseconds.
    A time value of JavaScript is at most 8.64e15 milliseconds in absolute
    value, so these seconds are a safe number for [new BN]. *)
Definition nowSeconds (dateNow : Z) : Z := dateNow / 1000.

(** ** The client *)

Section Client.

Variable E : Externals.

(** [new PublicKey(s)] throws on a string that is not a key. *)
Definition parsePublicKey (s : string) : Async PublicKey :=
  match newPublicKey E s with
  | Some k => ret k
  | None => throw (Upstream invalidPublicKey)
  end.

(** The condition of the [if] that guards [claimLocked]. *)
Definition unlockDue (claimStatus : option ClaimStatus.t) (amountLocked : Z)
    (nowTs : Z) (distributor : MerkleDistributor.t) : bool :=
  match claimStatus with
  | Some _ => true
  | None =>
      (amountLocked >? 0)
      && (nowTs - MerkleDistributor.startTs distributor
          >=? MerkleDistributor.unlockPeriod distributor)
  end.

Definition prepareCreateInstructions (self : SolanaDistributorClient)
    (dateNow : Z) (data : ICreateDistributorData.t)
    (extParams : ICreateSolanaExt.t)
  : Async (PublicKey * list TransactionInstruction) :=
  match publicKey (ICreateSolanaExt.invoker extParams) with
  | None => throw (Thrown invokerKeyMissing)
  | Some invokerKey =>
      let ixs :=
        map setup (prepareBaseInstructions E (ICreateSolanaExt.options extParams)) in
      mint <- (if ICreateSolanaExt.isNative extParams
               then ret (NATIVE_MINT E)
               else parsePublicKey (ICreateDistributorData.mint data)) ;;
      '(mintAccount, tokenProgramId) <- getMintAndProgram (connection self) mint ;;
      let distributorPublicKey :=
        getDistributorPda E (programId self) mint
          (ICreateDistributorData.version data) in
      let tokenVault := ata E mint distributorPublicKey tokenProgramId in
      let senderTokens := ata E mint invokerKey tokenProgramId in
      version <- newBN (ICreateDistributorData.version data) ;;
      unlockPeriod <- newBN (ICreateDistributorData.unlockPeriod data) ;;
      startVestingTs <- newBN (ICreateDistributorData.startVestingTs data) ;;
      endVestingTs <- newBN (ICreateDistributorData.endVestingTs data) ;;
      clawbackStartTs <- newBN (ICreateDistributorData.clawbackStartTs data) ;;
      let args :=
        {| NewDistributorArgs.version := version;
           NewDistributorArgs.root := ICreateDistributorData.root data;
           NewDistributorArgs.maxTotalClaim :=
             ICreateDistributorData.maxTotalClaim data;
           NewDistributorArgs.maxNumNodes :=
             ICreateDistributorData.maxNumNodes data;
           NewDistributorArgs.unlockPeriod := unlockPeriod;
           NewDistributorArgs.startVestingTs := startVestingTs;
           NewDistributorArgs.endVestingTs := endVestingTs;
           NewDistributorArgs.clawbackStartTs := clawbackStartTs;
           NewDistributorArgs.claimsClosable :=
             ICreateDistributorData.claimsClosable data |} in
      let accounts :=
        {| NewDistributorAccounts.distributor := distributorPublicKey;
           NewDistributorAccounts.clawbackReceiver := senderTokens;
           NewDistributorAccounts.mint := mint;
           NewDistributorAccounts.tokenVault := tokenVault;
           NewDistributorAccounts.admin := invokerKey;
           NewDistributorAccounts.systemProgram := SystemProgram_programId E;
           NewDistributorAccounts.associatedTokenProgram :=
             ASSOCIATED_TOKEN_PROGRAM_ID E;
           NewDistributorAccounts.tokenProgram := tokenProgramId |} in
      ixs <- (if ICreateSolanaExt.isNative extParams
              then wrapped <- prepareWrappedAccount (connection self) invokerKey
                                (ICreateDistributorData.maxTotalClaim data) ;;
                   ret (ixs ++ map setup wrapped)
              else ret ixs) ;;
      let nowTs := nowSeconds dateNow in
      let endVestingTs :=
        if NewDistributorArgs.endVestingTs args =? 0
        then nowTs else NewDistributorArgs.endVestingTs args in
      let startVestingTs :=
        if NewDistributorArgs.startVestingTs args =? 0
        then nowTs else NewDistributorArgs.startVestingTs args in
      if (endVestingTs >? startVestingTs)
         && (endVestingTs - startVestingTs <? NewDistributorArgs.unlockPeriod args)
      then throw (Thrown unlockPeriodTooLong)
      else
        let ixs := ixs ++ [newDistributor args accounts (programId self)] in
        let ixs :=
          ixs ++ [createTransferCheckedInstruction senderTokens mint tokenVault
                    invokerKey (ICreateDistributorData.maxTotalClaim data)
                    (decimals mintAccount) tokenProgramId] in
        ret (distributorPublicKey, ixs)
  end.

Definition prepareClaimInstructions (self : SolanaDistributorClient)
    (dateNow : Z) (data : IClaimData.t) (extParams : IInteractSolanaExt.t)
  : Async (list TransactionInstruction) :=
  match publicKey (IInteractSolanaExt.invoker extParams) with
  | None => throw (Thrown invokerKeyMissing)
  | Some invokerKey =>
      distributorPublicKey <- parsePublicKey (IClaimData.id data) ;;
      fetched <- MerkleDistributor_fetch (connection self) distributorPublicKey ;;
      match fetched with
      | None => throw (Thrown accountInfoMissing)
      | Some distributor =>
          '(_, tokenProgramId) <-
            getMintAndProgram (connection self) (MerkleDistributor.mint distributor) ;;
          let ixs :=
            map setup
              (prepareBaseInstructions E (IInteractSolanaExt.options extParams)) in
          atas <- checkOrCreateAtaBatch (connection self) [invokerKey]
                    (MerkleDistributor.mint distributor)
                    (IInteractSolanaExt.invoker extParams) tokenProgramId ;;
          let ixs := ixs ++ map setup atas in
          let invokerTokens :=
            ata E (MerkleDistributor.mint distributor) invokerKey tokenProgramId in
          let claimStatusPublicKey :=
            getClaimantStatusPda E (programId self) distributorPublicKey invokerKey in
          let eventAuthorityPublicKey := getEventAuthorityPda E (programId self) in
          claimStatus <- ClaimStatus_fetch (connection self) claimStatusPublicKey ;;
          let accounts :=
            {| ClaimAccounts.distributor := distributorPublicKey;
               ClaimAccounts.claimStatus := claimStatusPublicKey;
               ClaimAccounts.from := MerkleDistributor.tokenVault distributor;
               ClaimAccounts.to := invokerTokens;
               ClaimAccounts.claimant := invokerKey;
               ClaimAccounts.mint := MerkleDistributor.mint distributor;
               ClaimAccounts.tokenProgram := tokenProgramId;
               ClaimAccounts.systemProgram := SystemProgram_programId E;
               ClaimAccounts.eventAuthority := eventAuthorityPublicKey;
               ClaimAccounts.program := programId self |} in
          let ixs :=
            match claimStatus with
            | None =>
                let args :=
                  {| NewClaimArgs.amountLocked := IClaimData.amountLocked data;
                     NewClaimArgs.amountUnlocked := IClaimData.amountUnlocked data;
                     NewClaimArgs.proof := IClaimData.proof data |} in
                ixs ++ [newClaim args accounts (programId self)]
            | Some _ => ixs
            end in
          let nowTs := nowSeconds dateNow in
          let ixs :=
            if unlockDue claimStatus (IClaimData.amountLocked data) nowTs distributor
            then ixs ++ [claimLocked accounts (programId self)]
            else ixs in
          ret ixs
      end
  end.

Definition prepareClawbackInstructions (self : SolanaDistributorClient)
    (data : IClawbackData.t) (extParams : IInteractSolanaExt.t)
  : Async (list TransactionInstruction) :=
  match publicKey (IInteractSolanaExt.invoker extParams) with
  | None => throw (Thrown invokerKeyMissing)
  | Some invokerKey =>
      distributorPublicKey <- parsePublicKey (IClawbackData.id data) ;;
      fetched <- MerkleDistributor_fetch (connection self) distributorPublicKey ;;
      match fetched with
      | None => throw (Thrown accountInfoMissing)
      | Some distributor =>
          '(_, tokenProgramId) <-
            getMintAndProgram (connection self) (MerkleDistributor.mint distributor) ;;
          let ixs :=
            map setup
              (prepareBaseInstructions E (IInteractSolanaExt.options extParams)) in
          atas <- checkOrCreateAtaBatch (connection self) [invokerKey]
                    (MerkleDistributor.mint distributor)
                    (IInteractSolanaExt.invoker extParams) tokenProgramId ;;
          let ixs := ixs ++ map setup atas in
          let accounts :=
            {| ClawbackAccounts.distributor := distributorPublicKey;
               ClawbackAccounts.from := MerkleDistributor.tokenVault distributor;
               ClawbackAccounts.to := MerkleDistributor.clawbackReceiver distributor;
               ClawbackAccounts.admin := invokerKey;
               ClawbackAccounts.mint := MerkleDistributor.mint distributor;
               ClawbackAccounts.systemProgram := SystemProgram_programId E;
               ClawbackAccounts.tokenProgram := tokenProgramId |} in
          ret (ixs ++ [clawback accounts (programId self)])
      end
  end.

End Client.

(** ** What a successful claim composition has read, and what it returns *)

(** The values a run of [prepareClaimInstructions] obtains on its way to
    [return ixs]. *)
Record ClaimReads : Type :=
  { readInvokerKey : PublicKey;
    readDistributorKey : PublicKey;
    readDistributor : MerkleDistributor.t;
    readMintAccount : MintAccount;
    readTokenProgram : PublicKey;
    readAtas : list SetupInstruction;
    readClaimStatus : option ClaimStatus.t }.

Section ClaimShape.

Variable E : Externals.
Variable self : SolanaDistributorClient.
Variable dateNow : Z.
Variable data : IClaimData.t.
Variable extParams : IInteractSolanaExt.t.

Definition claimStatusAddress (r : ClaimReads) : PublicKey :=
  getClaimantStatusPda E (programId self) (readDistributorKey r) (readInvokerKey r).

(** Every check and every read of the method went through with [r]. *)
Definition claimReads (r : ClaimReads) : Prop :=
  publicKey (IInteractSolanaExt.invoker extParams) = Some (readInvokerKey r)
  /\ newPublicKey E (IClaimData.id data) = Some (readDistributorKey r)
  /\ distributorAccount (connection self) (readDistributorKey r)
     = Got (Some (readDistributor r))
  /\ mintAndProgram (connection self) (MerkleDistributor.mint (readDistributor r))
     = Got (readMintAccount r, readTokenProgram r)
  /\ ataBatch (connection self) [readInvokerKey r]
       (MerkleDistributor.mint (readDistributor r))
       (IInteractSolanaExt.invoker extParams) (readTokenProgram r)
     = Got (readAtas r)
  /\ claimStatusAccount (connection self) (claimStatusAddress r)
     = Got (readClaimStatus r).

Definition claimAccounts (r : ClaimReads) : ClaimAccounts.t :=
  {| ClaimAccounts.distributor := readDistributorKey r;
     ClaimAccounts.claimStatus := claimStatusAddress r;
     ClaimAccounts.from := MerkleDistributor.tokenVault (readDistributor r);
     ClaimAccounts.to :=
       ata E (MerkleDistributor.mint (readDistributor r)) (readInvokerKey r)
         (readTokenProgram r);
     ClaimAccounts.claimant := readInvokerKey r;
     ClaimAccounts.mint := MerkleDistributor.mint (readDistributor r);
     ClaimAccounts.tokenProgram := readTokenProgram r;
     ClaimAccounts.systemProgram := SystemProgram_programId E;
     ClaimAccounts.eventAuthority := getEventAuthorityPda E (programId self);
     ClaimAccounts.program := programId self |}.

Definition claimArgs : NewClaimArgs.t :=
  {| NewClaimArgs.amountLocked := IClaimData.amountLocked data;
     NewClaimArgs.amountUnlocked := IClaimData.amountUnlocked data;
     NewClaimArgs.proof := IClaimData.proof data |}.

(** The setup instructions that open the list. *)
Definition claimSetup (r : ClaimReads) : list SetupInstruction :=
  prepareBaseInstructions E (IInteractSolanaExt.options extParams) ++ readAtas r.

(** The claim instructions that close it. *)
Definition claimTail (r : ClaimReads) : list TransactionInstruction :=
  match readClaimStatus r with
  | None => [newClaim claimArgs (claimAccounts r) (programId self)]
  | Some _ => []
  end
  ++
  (if unlockDue (readClaimStatus r) (IClaimData.amountLocked data)
        (nowSeconds dateNow) (readDistributor r)
   then [claimLocked (claimAccounts r) (programId self)]
   else []).

Definition claimList (r : ClaimReads) : list TransactionInstruction :=
  map setup (claimSetup r) ++ claimTail r.

End ClaimShape.

(** ** A concrete cluster

    The distributor of the documentation's scenarios: vesting starts at 1000,
    the unlock period is 500, the claimant has 100 locked. *)

Definition sampleExternals : Externals :=
  {| newPublicKey := fun s =>
       if String.eqb s "distributor" then Some 40%N
       else if String.eqb s "mint" then Some 20%N
       else None;
     NATIVE_MINT := 1%N;
     SystemProgram_programId := 0%N;
     ASSOCIATED_TOKEN_PROGRAM_ID := 2%N;
     getDistributorPda := fun p m v => (1000 + 100 * p + 10 * m + Z.to_N v)%N;
     getClaimantStatusPda := fun p d c => (2000 + 100 * p + 10 * d + c)%N;
     getEventAuthorityPda := fun p => (3000 + p)%N;
     ata := fun m o t => (4000 + 100 * m + 10 * o + t)%N;
     prepareBaseInstructions := fun o =>
       match computePrice o with Some _ => [OpaqueIx 1] | None => [] end
       ++ match computeLimit o with Some _ => [OpaqueIx 2] | None => [] end |}.

Definition sampleDistributor : MerkleDistributor.t :=
  {| MerkleDistributor.mint := 20%N;
     MerkleDistributor.tokenVault := 21%N;
     MerkleDistributor.clawbackReceiver := 22%N;
     MerkleDistributor.unlockPeriod := 500;
     MerkleDistributor.startTs := 1000 |}.

(** A cluster that knows the mint 20 and the native mint, holds
    [distributor] at address 40 and [status] at every claim-status address,
    and answers [atas] to the token-account check. *)
Definition sampleConnection (distributor : option MerkleDistributor.t)
    (status : option ClaimStatus.t) (atas : list SetupInstruction) : Connection :=
  {| mintAndProgram := fun m =>
       if (m =? 20)%N || (m =? 1)%N then Got ({| decimals := 9 |}, 5%N)
       else Failed "mint not found";
     distributorAccount := fun a =>
       if (a =? 40)%N then Got distributor else Got None;
     claimStatusAccount := fun _ => Got status;
     ataBatch := fun _ _ _ _ => Got atas;
     wrappedAccount := fun _ _ => Got [OpaqueIx 7; OpaqueIx 8] |}.

Definition sampleClient (status : option ClaimStatus.t)
    (atas : list SetupInstruction) : SolanaDistributorClient :=
  {| connection := sampleConnection (Some sampleDistributor) status atas;
     programId := 9%N |}.

Definition sampleClaim (locked : Z) : IClaimData.t :=
  {| IClaimData.id := "distributor";
     IClaimData.proof := [[1; 2]; [3; 4]];
     IClaimData.amountUnlocked := 50;
     IClaimData.amountLocked := locked |}.

Definition plainOptions : ITransactionSolanaExt :=
  {| computePrice := None; computeLimit := None |}.

Definition pricedOptions : ITransactionSolanaExt :=
  {| computePrice := Some 1000; computeLimit := None |}.

Definition sampleInvoker : Invoker := {| publicKey := Some 6%N |}.
Definition disconnectedInvoker : Invoker := {| publicKey := None |}.

Definition sampleInteract (o : ITransactionSolanaExt) : IInteractSolanaExt.t :=
  {| IInteractSolanaExt.invoker := sampleInvoker; IInteractSolanaExt.options := o |}.

Definition sampleClaimed : ClaimStatus.t :=
  {| ClaimStatus.lockedAmount := 0; ClaimStatus.unlockedAmount := 50 |}.

Definition sampleReads (status : option ClaimStatus.t)
    (atas : list SetupInstruction) : ClaimReads :=
  {| readInvokerKey := 6%N;
     readDistributorKey := 40%N;
     readDistributor := sampleDistributor;
     readMintAccount := {| decimals := 9 |};
     readTokenProgram := 5%N;
     readAtas := atas;
     readClaimStatus := status |}.

Definition sampleCreate (startTs endTs unlock : Z) : ICreateDistributorData.t :=
  {| ICreateDistributorData.mint := "mint";
     ICreateDistributorData.version := 3;
     ICreateDistributorData.root := [170; 187];
     ICreateDistributorData.maxTotalClaim := 1000000;
     ICreateDistributorData.maxNumNodes := 4;
     ICreateDistributorData.unlockPeriod := unlock;
     ICreateDistributorData.startVestingTs := startTs;
     ICreateDistributorData.endVestingTs := endTs;
     ICreateDistributorData.clawbackStartTs := endTs + 86400;
     ICreateDistributorData.claimsClosable := false |}.

Definition sampleCreateExt (i : Invoker) (native : bool) : ICreateSolanaExt.t :=
  {| ICreateSolanaExt.invoker := i;
     ICreateSolanaExt.isNative := native;
     ICreateSolanaExt.options := plainOptions |}.

Definition sampleClawback : IClawbackData.t := {| IClawbackData.id := "distributor" |}.

(** A client whose cluster has no account at the distributor address. *)
Definition emptyClient : SolanaDistributorClient :=
  {| connection := sampleConnection None None []; programId := 9%N |}.

(** ** Properties under study *)

(** The claim instructions of a list, in order: [false] stands for a
    new-claim, [true] for a claim-locked instruction. *)
Definition claimShape (ixs : list TransactionInstruction) : list bool :=
  map isClaimLocked (filter isClaimInstruction ixs).

(** The mint a creation works on. *)
Definition createMint (E : Externals) (data : ICreateDistributorData.t)
    (extParams : ICreateSolanaExt.t) : option PublicKey :=
  if ICreateSolanaExt.isNative extParams then Some (NATIVE_MINT E)
  else newPublicKey E (ICreateDistributorData.mint data).

(** "If claimStatus is present and unlock is not yet due, the composed list
    contains zero claim instructions." *)
Definition NoOpSafety : Prop :=
  forall E self dateNow data extParams r ixs,
    claimReads E self data extParams r ->
    readClaimStatus r <> None ->
    nowSeconds dateNow - MerkleDistributor.startTs (readDistributor r)
      < MerkleDistributor.unlockPeriod (readDistributor r) ->
    outcome (prepareClaimInstructions E self dateNow data extParams) = inr ixs ->
    filter isClaimInstruction ixs = [].

(** "If claimStatus is NotFound, the first element of the composed list is
    always the new-claim instruction." *)
Definition NewClaimIsHead : Prop :=
  forall E self dateNow data extParams r ixs,
    claimReads E self data extParams r ->
    readClaimStatus r = None ->
    outcome (prepareClaimInstructions E self dateNow data extParams) = inr ixs ->
    option_map isNewClaim (hd_error ixs) = Some true.

(** "At most one new-claim and at most one claim-locked, new-claim first." *)
Definition ClaimsInOrder : Prop :=
  forall E self dateNow data extParams ixs,
    outcome (prepareClaimInstructions E self dateNow data extParams) = inr ixs ->
    In (claimShape ixs) [[]; [false]; [true]; [false; true]].

(** "Both may be absent": some composition returns a list without any claim
    instruction. *)
Definition ClaimsMayBeAbsent : Prop :=
  exists E self dateNow data extParams ixs,
    outcome (prepareClaimInstructions E self dateNow data extParams) = inr ixs
    /\ claimShape ixs = [].

(** "For endVestingTs > startVestingTs > 0, creation fails with InvalidInput
    iff endVestingTs - startVestingTs < unlockPeriod; otherwise it returns the
    composed list." *)
Definition VestingInvariant : Prop :=
  forall E self dateNow data extParams,
    0 < ICreateDistributorData.startVestingTs data
      < ICreateDistributorData.endVestingTs data ->
    ((exists e,
         outcome (prepareCreateInstructions E self dateNow data extParams) = inl e
         /\ isInvalidInput e = true)
     <-> ICreateDistributorData.endVestingTs data
         - ICreateDistributorData.startVestingTs data
         < ICreateDistributorData.unlockPeriod data)
    /\ (ICreateDistributorData.unlockPeriod data
        <= ICreateDistributorData.endVestingTs data
           - ICreateDistributorData.startVestingTs data ->
        exists res,
          outcome (prepareCreateInstructions E self dateNow data extParams) = inr res).

(** A computation whose [InvalidInput] failures come before any network read. *)
Definition FailsFast {A : Type} (m : Async A) : Prop :=
  forall e, outcome m = inl e -> isInvalidInput e = true -> trace m = [].

(** "InvalidInput fails fast, before any network call", for the three
    composers. *)
Definition InvalidInputBeforeNetwork : Prop :=
  (forall E self dateNow data extParams,
      FailsFast (prepareCreateInstructions E self dateNow data extParams))
  /\ (forall E self dateNow data extParams,
         FailsFast (prepareClaimInstructions E self dateNow data extParams))
  /\ (forall E self data extParams,
         FailsFast (prepareClawbackInstructions E self data extParams)).




(** The numeric fields of a creation that go through [new BN(x, 10)] are all
    safe numbers. *)
Definition createNumbersSafe (data : ICreateDistributorData.t) : bool :=
  safeNumber (ICreateDistributorData.version data)
  && safeNumber (ICreateDistributorData.unlockPeriod data)
  && safeNumber (ICreateDistributorData.startVestingTs data)
  && safeNumber (ICreateDistributorData.endVestingTs data)
  && safeNumber (ICreateDistributorData.clawbackStartTs data).

(** The condition under which creation throws the unlock-period error: the
    test of client.ts on the vesting window, a timestamp of zero standing for
    "now", on the numbers of the request once they are converted. *)
Definition vestingRejected (dateNow : Z) (data : ICreateDistributorData.t) : bool :=
  let nowTs := nowSeconds dateNow in
  let endVestingTs :=
    if ICreateDistributorData.endVestingTs data =? 0
    then nowTs else ICreateDistributorData.endVestingTs data in
  let startVestingTs :=
    if ICreateDistributorData.startVestingTs data =? 0
    then nowTs else ICreateDistributorData.startVestingTs data in
  (endVestingTs >? startVestingTs)
  && (endVestingTs - startVestingTs <? ICreateDistributorData.unlockPeriod data).

(** The network reads of a creation that gets as far as the vesting test,
    which takes safe numbers. *)
Definition createReads (mint invokerKey : PublicKey) (native : bool)
  : list NetCall :=
  NetGetMintAndProgram mint
  :: (if native then [NetPrepareWrappedAccount invokerKey] else []).

(** ** The rest of the client: construction, submission, batch getters *)

Definition Commitment : Type := string.

Module ConnectionConfig.
Record t : Type := { commitment : option Commitment }.
End ConnectionConfig.

(** [Commitment | ConnectionConfig], the type of the [commitment] field. *)
Inductive CommitmentOrConfig : Type :=
| commitmentString (c : Commitment)
| commitmentConfig (cfg : ConnectionConfig.t).

(** A [PQueue] throttling the submissions: opaque to the client. *)
Inductive PQueue : Type :=
| Throttler (tag : N).

Module IGetClaimData.
Record t : Type := { id : string; recipient : string }.
End IGetClaimData.

Module IGetDistributors.
Record t : Type := { ids : list string }.
End IGetDistributors.

Module ITransactionResult.
Record t : Type := { ixs : list TransactionInstruction; txId : string }.
End ITransactionResult.

Module ICreateDistributorResult.
Record t : Type :=
  { ixs : list TransactionInstruction; txId : string; metadataId : string }.
End ICreateDistributorResult.

(** The object [{ tx, hash, context }] that [prepareTransaction] resolves to;
    its three parts are opaque to the client. *)
Record PreparedTransaction : Type := { tx : N; hash : N; context : N }.

(** What a public method asks of the cluster: the reads of its composer, then
    the calls of the transaction pipeline, or a batch fetch. *)
Inductive ClientCall : Type :=
| Compose (c : NetCall)
| NetPrepareTransaction (ixs : list TransactionInstruction)
    (payer : option PublicKey)
| NetSignAndExecute (invoker : Invoker) (tx hash context : N)
    (commitment : option Commitment) (sendThrottler : PQueue)
| NetFetchMultipleClaimStatus (addresses : list PublicKey) (programId : PublicKey)
| NetFetchMultipleDistributors (addresses : list PublicKey) (programId : PublicKey).

Definition isPipelineCall (c : ClientCall) : bool :=
  match c with
  | NetPrepareTransaction _ _ | NetSignAndExecute _ _ _ _ _ _ => true
  | _ => false
  end.

Definition isSubmission (c : ClientCall) : bool :=
  match c with NetSignAndExecute _ _ _ _ _ _ => true | _ => false end.

Definition Task (A : Type) : Type := (list ClientCall * (Exn + A))%type.

Definition retT {A : Type} (a : A) : Task A := ([], inr a).

Definition bindT {A B : Type} (m : Task A) (k : A -> Task B) : Task B :=
  match m with
  | (t, inl e) => (t, inl e)
  | (t, inr a) => let (t', r) := k a in (t ++ t', r)
  end.

(** A composer awaited inside a public method. *)
Definition liftT {A : Type} (m : Async A) : Task A :=
  (map Compose (trace m), outcome m).

Definition awaitT {A : Type} (c : ClientCall) (r : Reply A) : Task A :=
  ([c], match r with Failed s => inl (Upstream s) | Got a => inr a end).

Declare Scope task_scope.
Delimit Scope task_scope with task.
Notation "x <- m ;; k" := (bindT m (fun x => k))
  (at level 100, m at next level, right associativity) : task_scope.
Notation "' p <- m ;; k" := (bindT m (fun x => let 'p := x in k))
  (at level 100, p pattern, m at next level, right associativity) : task_scope.

(** [array.map(f)] with a callback that may throw: the first element that
    throws ends the map. *)
Fixpoint mapTask {A B : Type} (f : A -> Task B) (l : list A) : Task (list B) :=
  match l with
  | [] => retT []
  | a :: l' => (b <- f a ;; bs <- mapTask f l' ;; retT (b :: bs))%task
  end.

(** Modelled from the spec: the transaction pipeline ([prepareTransaction] of
    [@streamflow/common/solana], [wrappedSignAndExecuteTransaction] of
    [./utils]) and the batch fetches of [./generated/accounts] are not in the
    sources; a [Pipeline] holds what the cluster answers to each. *)
Record Pipeline : Type :=
  { preparedTransaction :
      list TransactionInstruction -> option PublicKey -> Reply PreparedTransaction;
    executedTransaction :
      Invoker -> N -> N -> N -> option Commitment -> PQueue -> Reply string;
    claimStatusAccounts :
      list PublicKey -> PublicKey -> Reply (list (option ClaimStatus.t));
    distributorAccounts :
      list PublicKey -> PublicKey -> Reply (list (option MerkleDistributor.t)) }.

(** The cluster behind [new Connection(clusterUrl, commitment)]. *)
Record Endpoint : Type := { reads : Connection; pipeline : Pipeline }.

Definition prepareTransaction (p : Pipeline) (ixs : list TransactionInstruction)
    (payer : option PublicKey) : Task PreparedTransaction :=
  awaitT (NetPrepareTransaction ixs payer) (preparedTransaction p ixs payer).

Definition wrappedSignAndExecuteTransaction (p : Pipeline) (invoker : Invoker)
    (tx hash context : N) (commitment : option Commitment)
    (sendThrottler : PQueue) : Task string :=
  awaitT (NetSignAndExecute invoker tx hash context commitment sendThrottler)
         (executedTransaction p invoker tx hash context commitment sendThrottler).

Definition ClaimStatus_fetchMultiple (p : Pipeline) (addresses : list PublicKey)
    (programId : PublicKey) : Task (list (option ClaimStatus.t)) :=
  awaitT (NetFetchMultipleClaimStatus addresses programId)
         (claimStatusAccounts p addresses programId).

Definition MerkleDistributor_fetchMultiple (p : Pipeline)
    (addresses : list PublicKey) (programId : PublicKey)
  : Task (list (option MerkleDistributor.t)) :=
  awaitT (NetFetchMultipleDistributors addresses programId)
         (distributorAccounts p addresses programId).

Module IInitOptions.
Record t (ICluster : Type) : Type :=
  { clusterUrl : string;
    cluster : option ICluster;
    commitment : option CommitmentOrConfig;
    programId : option string;
    sendRate : option Z;
    sendThrottler : option PQueue }.
Arguments clusterUrl {ICluster} _.
Arguments cluster {ICluster} _.
Arguments commitment {ICluster} _.
Arguments programId {ICluster} _.
Arguments sendRate {ICluster} _.
Arguments sendThrottler {ICluster} _.
End IInitOptions.

(** The class [SolanaDistributorClient] with its four fields and its public
    methods; the composers above work on [composer self]. *)
Module Client.

Record t : Type :=
  { connection : Endpoint;
    programId : PublicKey;
    commitment : CommitmentOrConfig;
    sendThrottler : PQueue }.

Definition composer (self : t) : SolanaDistributorClient :=
  Build_SolanaDistributorClient (reads (connection self)) (programId self).

Section Methods.

Variable E : Externals.
Variable toBase58 : PublicKey -> string.

(** The enum [ICluster], its member [Mainnet], the table
    [DISTRIBUTOR_PROGRAM_ID] of [./constants], [new Connection] and
    [buildSendThrottler]: parameters of the constructor. *)
Variable ICluster : Type.
Variable Mainnet : ICluster.
Variable DISTRIBUTOR_PROGRAM_ID : ICluster -> string.
Variable newConnection : string -> CommitmentOrConfig -> Reply Endpoint.
Variable buildSendThrottler : Z -> PQueue.

Definition orDefault {A : Type} (d : A) (o : option A) : A :=
  match o with Some a => a | None => d end.

Definition constructor (o : IInitOptions.t ICluster) : Exn + t :=
  let cluster := orDefault Mainnet (IInitOptions.cluster o) in
  let commitment :=
    orDefault (commitmentString "confirmed"%string) (IInitOptions.commitment o) in
  let programId := orDefault EmptyString (IInitOptions.programId o) in
  let sendRate := orDefault 1 (IInitOptions.sendRate o) in
  match newConnection (IInitOptions.clusterUrl o) commitment with
  | Failed s => inl (Upstream s)
  | Got connection =>
      match newPublicKey E (if negb (String.eqb programId EmptyString)
                            then programId
                            else DISTRIBUTOR_PROGRAM_ID cluster) with
      | None => inl (Upstream invalidPublicKey)
      | Some key =>
          inr {| connection := connection;
                 programId := key;
                 commitment := commitment;
                 sendThrottler :=
                   match IInitOptions.sendThrottler o with
                   | Some q => q
                   | None => buildSendThrottler sendRate
                   end |}
      end
  end.

Definition getCommitment (self : t) : option Commitment :=
  match commitment self with
  | commitmentString c => Some c
  | commitmentConfig cfg => ConnectionConfig.commitment cfg
  end.

Definition create (self : t) (dateNow : Z) (data : ICreateDistributorData.t)
    (extParams : ICreateSolanaExt.t) : Task ICreateDistributorResult.t :=
  ('(distributorPublicKey, ixs) <-
     liftT (prepareCreateInstructions E (composer self) dateNow data extParams) ;;
   prepared <- prepareTransaction (pipeline (connection self)) ixs
                 (publicKey (ICreateSolanaExt.invoker extParams)) ;;
   signature <- wrappedSignAndExecuteTransaction (pipeline (connection self))
                  (ICreateSolanaExt.invoker extParams)
                  (tx prepared) (hash prepared) (context prepared)
                  (getCommitment self) (sendThrottler self) ;;
   retT {| ICreateDistributorResult.ixs := ixs;
           ICreateDistributorResult.txId := signature;
           ICreateDistributorResult.metadataId := toBase58 distributorPublicKey |})%task.

Definition claim (self : t) (dateNow : Z) (data : IClaimData.t)
    (extParams : IInteractSolanaExt.t) : Task ITransactionResult.t :=
  (ixs <- liftT (prepareClaimInstructions E (composer self) dateNow data extParams) ;;
   prepared <- prepareTransaction (pipeline (connection self)) ixs
                 (publicKey (IInteractSolanaExt.invoker extParams)) ;;
   signature <- wrappedSignAndExecuteTransaction (pipeline (connection self))
                  (IInteractSolanaExt.invoker extParams)
                  (tx prepared) (hash prepared) (context prepared)
                  (getCommitment self) (sendThrottler self) ;;
   retT {| ITransactionResult.ixs := ixs;
           ITransactionResult.txId := signature |})%task.

Definition clawback (self : t) (data : IClawbackData.t)
    (extParams : IInteractSolanaExt.t) : Task ITransactionResult.t :=
  (ixs <- liftT (prepareClawbackInstructions E (composer self) data extParams) ;;
   prepared <- prepareTransaction (pipeline (connection self)) ixs
                 (publicKey (IInteractSolanaExt.invoker extParams)) ;;
   signature <- wrappedSignAndExecuteTransaction (pipeline (connection self))
                  (IInteractSolanaExt.invoker extParams)
                  (tx prepared) (hash prepared) (context prepared)
                  (getCommitment self) (sendThrottler self) ;;
   retT {| ITransactionResult.ixs := ixs;
           ITransactionResult.txId := signature |})%task.

Definition getClaims (self : t) (data : list IGetClaimData.t)
  : Task (list (option ClaimStatus.t)) :=
  (claimStatusPublicKeys <-
     mapTask (fun d =>
                id <- liftT (parsePublicKey E (IGetClaimData.id d)) ;;
                recipient <- liftT (parsePublicKey E (IGetClaimData.recipient d)) ;;
                retT (getClaimantStatusPda E (programId self) id recipient))
             data ;;
   ClaimStatus_fetchMultiple (pipeline (connection self)) claimStatusPublicKeys
     (programId self))%task.

Definition getDistributors (self : t) (data : IGetDistributors.t)
  : Task (list (option MerkleDistributor.t)) :=
  (distributorPublicKeys <-
     mapTask (fun distributorId => liftT (parsePublicKey E distributorId))
             (IGetDistributors.ids data) ;;
   MerkleDistributor_fetchMultiple (pipeline (connection self))
     distributorPublicKeys (programId self))%task.

End Methods.

End Client.

(** ** Shapes of the creation and clawback lists, and sample pipeline *)

(** The arguments of the create-distributor instruction, for a request whose
    numbers were converted. *)
Definition createArgs (data : ICreateDistributorData.t) : NewDistributorArgs.t :=
  {| NewDistributorArgs.version := ICreateDistributorData.version data;
     NewDistributorArgs.root := ICreateDistributorData.root data;
     NewDistributorArgs.maxTotalClaim := ICreateDistributorData.maxTotalClaim data;
     NewDistributorArgs.maxNumNodes := ICreateDistributorData.maxNumNodes data;
     NewDistributorArgs.unlockPeriod := ICreateDistributorData.unlockPeriod data;
     NewDistributorArgs.startVestingTs :=
       ICreateDistributorData.startVestingTs data;
     NewDistributorArgs.endVestingTs := ICreateDistributorData.endVestingTs data;
     NewDistributorArgs.clawbackStartTs :=
       ICreateDistributorData.clawbackStartTs data;
     NewDistributorArgs.claimsClosable :=
       ICreateDistributorData.claimsClosable data |}.

(** The address of the distributor a creation sets up. *)
Definition createdDistributor (E : Externals) (self : SolanaDistributorClient)
    (data : ICreateDistributorData.t) (mint : PublicKey) : PublicKey :=
  getDistributorPda E (programId self) mint (ICreateDistributorData.version data).

Definition createAccounts (E : Externals) (self : SolanaDistributorClient)
    (data : ICreateDistributorData.t) (mint invokerKey tokenProgramId : PublicKey)
  : NewDistributorAccounts.t :=
  {| NewDistributorAccounts.distributor := createdDistributor E self data mint;
     NewDistributorAccounts.clawbackReceiver := ata E mint invokerKey tokenProgramId;
     NewDistributorAccounts.mint := mint;
     NewDistributorAccounts.tokenVault :=
       ata E mint (createdDistributor E self data mint) tokenProgramId;
     NewDistributorAccounts.admin := invokerKey;
     NewDistributorAccounts.systemProgram := SystemProgram_programId E;
     NewDistributorAccounts.associatedTokenProgram := ASSOCIATED_TOKEN_PROGRAM_ID E;
     NewDistributorAccounts.tokenProgram := tokenProgramId |}.

(** The two instructions that close the list of a creation. *)
Definition createTail (E : Externals) (self : SolanaDistributorClient)
    (data : ICreateDistributorData.t) (mint invokerKey : PublicKey)
    (mintAccount : MintAccount) (tokenProgramId : PublicKey)
  : list TransactionInstruction :=
  [newDistributor (createArgs data)
     (createAccounts E self data mint invokerKey tokenProgramId) (programId self);
   createTransferCheckedInstruction
     (ata E mint invokerKey tokenProgramId) mint
     (ata E mint (createdDistributor E self data mint) tokenProgramId)
     invokerKey (ICreateDistributorData.maxTotalClaim data)
     (decimals mintAccount) tokenProgramId].

(** [data] with another [mint] string. *)
Definition withMint (s : string) (data : ICreateDistributorData.t)
  : ICreateDistributorData.t :=
  {| ICreateDistributorData.mint := s;
     ICreateDistributorData.version := ICreateDistributorData.version data;
     ICreateDistributorData.root := ICreateDistributorData.root data;
     ICreateDistributorData.maxTotalClaim := ICreateDistributorData.maxTotalClaim data;
     ICreateDistributorData.maxNumNodes := ICreateDistributorData.maxNumNodes data;
     ICreateDistributorData.unlockPeriod := ICreateDistributorData.unlockPeriod data;
     ICreateDistributorData.startVestingTs :=
       ICreateDistributorData.startVestingTs data;
     ICreateDistributorData.endVestingTs := ICreateDistributorData.endVestingTs data;
     ICreateDistributorData.clawbackStartTs :=
       ICreateDistributorData.clawbackStartTs data;
     ICreateDistributorData.claimsClosable :=
       ICreateDistributorData.claimsClosable data |}.

Definition clawbackAccounts (E : Externals) (distributorKey : PublicKey)
    (distributor : MerkleDistributor.t) (invokerKey tokenProgramId : PublicKey)
  : ClawbackAccounts.t :=
  {| ClawbackAccounts.distributor := distributorKey;
     ClawbackAccounts.from := MerkleDistributor.tokenVault distributor;
     ClawbackAccounts.to := MerkleDistributor.clawbackReceiver distributor;
     ClawbackAccounts.admin := invokerKey;
     ClawbackAccounts.mint := MerkleDistributor.mint distributor;
     ClawbackAccounts.systemProgram := SystemProgram_programId E;
     ClawbackAccounts.tokenProgram := tokenProgramId |}.

(** The reads of a claim composition that gets to its end. *)
Definition claimTrace (E : Externals) (self : SolanaDistributorClient)
    (r : ClaimReads) : list NetCall :=
  [NetFetchDistributor (readDistributorKey r);
   NetGetMintAndProgram (MerkleDistributor.mint (readDistributor r));
   NetCheckOrCreateAta [readInvokerKey r]
     (MerkleDistributor.mint (readDistributor r));
   NetFetchClaimStatus (claimStatusAddress E self r)].

(** What may stand in a claim list: setup instructions, and the two claim
    instructions on the accounts and program of the run. *)
Definition claimListMember (E : Externals) (self : SolanaDistributorClient)
    (data : IClaimData.t) (r : ClaimReads) (ix : TransactionInstruction) : Prop :=
  match ix with
  | setup _ => True
  | newClaim args accounts program =>
      args = claimArgs data /\ accounts = claimAccounts E self r
      /\ program = programId self
  | claimLocked accounts program =>
      accounts = claimAccounts E self r /\ program = programId self
  | _ => False
  end.

(** A pipeline that prepares and executes every transaction, and knows the
    sample distributor at address 40 and no claim status but the one at
    address 2_006 + 400 + 900 = 3306. *)
Definition samplePipeline : Pipeline :=
  {| preparedTransaction := fun ixs _ =>
       Got {| tx := N.of_nat (List.length ixs); hash := 77%N; context := 78%N |};
     executedTransaction := fun _ _ _ _ _ _ => Got "signature"%string;
     claimStatusAccounts := fun addresses _ =>
       Got (map (fun a => if (a =? 3306)%N then Some sampleClaimed else None)
                addresses);
     distributorAccounts := fun addresses _ =>
       Got (map (fun a => if (a =? 40)%N then Some sampleDistributor else None)
                addresses) |}.

(** A pipeline whose cluster hands out no block hash. *)
Definition stalledPipeline : Pipeline :=
  {| preparedTransaction := fun _ _ => Failed "no recent blockhash"%string;
     executedTransaction := executedTransaction samplePipeline;
     claimStatusAccounts := claimStatusAccounts samplePipeline;
     distributorAccounts := distributorAccounts samplePipeline |}.

Definition sampleFullClient (p : Pipeline) (status : option ClaimStatus.t)
    (atas : list SetupInstruction) : Client.t :=
  {| Client.connection :=
       {| reads := sampleConnection (Some sampleDistributor) status atas;
          pipeline := p |};
     Client.programId := 9%N;
     Client.commitment := commitmentString "confirmed"%string;
     Client.sendThrottler := Throttler 1 |}.

Definition sampleToBase58 (k : PublicKey) : string :=
  if (k =? 2103)%N then "distributor-address"%string else "other"%string.

Inductive SampleCluster : Type := sampleMainnet | sampleDevnet.

Definition sampleProgramIds (c : SampleCluster) : string :=
  match c with
  | sampleMainnet => "mint"%string
  | sampleDevnet => "distributor"%string
  end.

Definition sampleNewConnection (url : string) (c : CommitmentOrConfig)
  : Reply Endpoint :=
  if String.eqb url "" then Failed "Endpoint URL must start with http"%string
  else Got {| reads := sampleConnection (Some sampleDistributor) None [];
              pipeline := samplePipeline |}.

Definition sampleInit (cluster : option SampleCluster) (program : option string)
  : IInitOptions.t SampleCluster :=
  {| IInitOptions.clusterUrl := "https://rpc"%string;
     IInitOptions.cluster := cluster;
     IInitOptions.commitment := None;
     IInitOptions.programId := program;
     IInitOptions.sendRate := None;
     IInitOptions.sendThrottler := None |}.

(** Splits a goal along the conversions of a creation that go through. *)
Ltac split_numbers :=
  repeat match goal with
         | |- context [if safeNumber ?n then _ else _] =>
             destruct (safeNumber n) eqn:?; cbn
         end.

(** Unfolds the awaits of a public method. *)
Ltac run_task :=
  unfold prepareTransaction, wrappedSignAndExecuteTransaction,
    ClaimStatus_fetchMultiple, MerkleDistributor_fetchMultiple,
    awaitT, liftT, bindT, retT in *.

(** Unfolds the awaits of a method down to pairs of reads and outcome. *)
Ltac run_async :=
  unfold getMintAndProgram, MerkleDistributor_fetch, ClaimStatus_fetch,
    checkOrCreateAtaBatch, prepareWrappedAccount, parsePublicKey, newBN,
    BN_of_number, await, bind, ret, throw, outcome, trace in *.

(** The scenarios of the documentation, run on the model. *)
Example scenario_first_claim_before_unlock :
  filter isClaimInstruction
    (claimList sampleExternals (sampleClient None []) 1400000 (sampleClaim 100)
       (sampleInteract plainOptions) (sampleReads None []))
  = [newClaim (claimArgs (sampleClaim 100))
       (claimAccounts sampleExternals (sampleClient None []) (sampleReads None []))
       9%N]
  /\ outcome (prepareClaimInstructions sampleExternals (sampleClient None [])
                1400000 (sampleClaim 100) (sampleInteract plainOptions))
     = inr (claimList sampleExternals (sampleClient None []) 1400000
              (sampleClaim 100) (sampleInteract plainOptions) (sampleReads None [])).
Proof. split; reflexivity. Qed.

Example scenario_first_claim_after_unlock :
  map isClaimLocked
    (claimList sampleExternals (sampleClient None []) 1600000 (sampleClaim 100)
       (sampleInteract plainOptions) (sampleReads None []))
  = [false; true]
  /\ outcome (prepareClaimInstructions sampleExternals (sampleClient None [])
                1600000 (sampleClaim 100) (sampleInteract plainOptions))
     = inr (claimList sampleExternals (sampleClient None []) 1600000
              (sampleClaim 100) (sampleInteract plainOptions) (sampleReads None [])).
Proof. split; reflexivity. Qed.

(** ** The monad of asynchronous computations *)

Lemma outcome_bind_inr {A B : Type} (m : Async A) (k : A -> Async B) (b : B) :
  outcome (bind m k) = inr b ->
  exists a, outcome m = inr a /\ outcome (k a) = inr b.
Proof.
  destruct m as [t [e | a]]; cbn; intros H.
  - discriminate.
  - exists a. split; [reflexivity |].
    destruct (k a) as [t' r]; cbn in *. exact H.
Qed.

Lemma outcome_await_inr {A : Type} (c : NetCall) (r : Reply A) (a : A) :
  outcome (await c r) = inr a <-> r = Got a.
Proof.
  destruct r; cbn; split; intros H; try discriminate; congruence.
Qed.

(** ** Shape of a claim composition *)

Section ClaimRuns.

Variable E : Externals.
Variable self : SolanaDistributorClient.
Variable dateNow : Z.
Variable data : IClaimData.t.
Variable extParams : IInteractSolanaExt.t.

(** When every read goes through, the method returns the setup prefix
    followed by the claim instructions. *)
Lemma prepareClaimInstructions_returns (r : ClaimReads) :
  claimReads E self data extParams r ->
  outcome (prepareClaimInstructions E self dateNow data extParams)
  = inr (claimList E self dateNow data extParams r).
Proof.
  intros (Hk & Hd & Hf & Hm & Ha & Hs).
  unfold prepareClaimInstructions, parsePublicKey, MerkleDistributor_fetch,
    getMintAndProgram, checkOrCreateAtaBatch, ClaimStatus_fetch, await.
  unfold claimStatusAddress in Hs.
  rewrite Hk, Hd; cbn. rewrite Hf; cbn. rewrite Hm; cbn.
  rewrite Ha; cbn. rewrite Hs; cbn.
  unfold claimList, claimTail, claimSetup, claimAccounts, claimArgs,
    claimStatusAddress.
  rewrite map_app, <- app_assoc.
  destruct (readClaimStatus r); cbn.
  - reflexivity.
  - destruct (_ && _); cbn; rewrite <- ?app_assoc; reflexivity.
Qed.

(** Conversely a returned list comes from a run in which every read went
    through. *)
Lemma prepareClaimInstructions_inv (ixs : list TransactionInstruction) :
  outcome (prepareClaimInstructions E self dateNow data extParams) = inr ixs ->
  exists r, claimReads E self data extParams r
            /\ ixs = claimList E self dateNow data extParams r.
Proof.
  intros H.
  assert (Hreads : exists r, claimReads E self data extParams r).
  { revert H. unfold prepareClaimInstructions, parsePublicKey.
    destruct (publicKey (IInteractSolanaExt.invoker extParams)) as [k |] eqn:Hk;
      [| discriminate].
    destruct (newPublicKey E (IClaimData.id data)) as [d |] eqn:Hd;
      [| discriminate].
    intros H.
    apply outcome_bind_inr in H as (d' & Hd' & H). injection Hd' as <-.
    apply outcome_bind_inr in H as ([dist |] & Hf & H); [| discriminate].
    apply outcome_await_inr in Hf.
    apply outcome_bind_inr in H as ([ma tp] & Hm & H).
    apply outcome_await_inr in Hm.
    apply outcome_bind_inr in H as (atas & Ha & H).
    apply outcome_await_inr in Ha.
    apply outcome_bind_inr in H as (cs & Hs & _).
    apply outcome_await_inr in Hs.
    exists {| readInvokerKey := k; readDistributorKey := d;
              readDistributor := dist; readMintAccount := ma;
              readTokenProgram := tp; readAtas := atas;
              readClaimStatus := cs |}.
    unfold claimReads, claimStatusAddress; cbn. tauto. }
  destruct Hreads as [r Hr]. exists r. split; [exact Hr |].
  rewrite (prepareClaimInstructions_returns r Hr) in H. congruence.
Qed.

End ClaimRuns.

(** Setup instructions are no claim instructions. *)
Lemma filter_claim_setup (l : list SetupInstruction) :
  filter isClaimInstruction (map setup l) = [].
Proof. induction l as [| i l IH]; cbn; [reflexivity | exact IH]. Qed.

Lemma claimShape_claimList E self dateNow data extParams r :
  claimShape (claimList E self dateNow data extParams r)
  = map isClaimLocked (claimTail E self dateNow data r).
Proof.
  unfold claimShape, claimList.
  rewrite filter_app, filter_claim_setup; cbn.
  unfold claimTail.
  destruct (readClaimStatus r); cbn; [reflexivity |].
  destruct (_ && _); reflexivity.
Qed.

Lemma filter_claim_claimList E self dateNow data extParams r :
  filter isClaimInstruction (claimList E self dateNow data extParams r)
  = claimTail E self dateNow data r.
Proof.
  unfold claimList.
  rewrite filter_app, filter_claim_setup; cbn.
  unfold claimTail.
  destruct (readClaimStatus r); cbn; [reflexivity |].
  destruct (_ && _); reflexivity.
Qed.

(** The reads of a claim composition that gets to its end. *)
Lemma prepareClaimInstructions_trace E self dateNow data extParams r :
  claimReads E self data extParams r ->
  trace (prepareClaimInstructions E self dateNow data extParams)
  = claimTrace E self r.
Proof.
  intros (Hk & Hd & Hf & Hm & Ha & Hs).
  unfold prepareClaimInstructions, claimTrace. run_async.
  unfold claimStatusAddress in *.
  rewrite Hk, Hd; cbn. rewrite Hf; cbn. rewrite Hm; cbn.
  rewrite Ha; cbn. rewrite Hs; cbn. reflexivity.
Qed.

(** ** Claim composition *)

(** C1, as stated, fails: with a claim status present and [now = 1200]
    (200 seconds after the vesting start, unlock period 500) the composed list
    is the single claim-locked instruction. *)
Lemma no_op_safety_fails : ~ NoOpSafety.
Proof.
  intros H.
  specialize (H sampleExternals (sampleClient (Some sampleClaimed) []) 1200000
                (sampleClaim 100) (sampleInteract plainOptions)
                (sampleReads (Some sampleClaimed) [])
                [claimLocked
                   (claimAccounts sampleExternals
                      (sampleClient (Some sampleClaimed) [])
                      (sampleReads (Some sampleClaimed) []))
                   9%N]).
  cbn in H.
  assert (Hnil : [claimLocked
                    (claimAccounts sampleExternals
                       (sampleClient (Some sampleClaimed) [])
                       (sampleReads (Some sampleClaimed) []))
                    9%N] = []).
  { apply H.
    - unfold claimReads; cbn. repeat split; reflexivity.
    - discriminate.
    - vm_compute. reflexivity.
    - reflexivity. }
  discriminate Hnil.
Qed.

(** C1, amended: when the claim status is present and the unlock is not yet
    due, the composition returns the setup prefix followed by exactly one
    claim instruction, the claim-locked one; there is no new-claim. *)
Theorem present_status_before_unlock E self dateNow data extParams r :
  claimReads E self data extParams r ->
  readClaimStatus r <> None ->
  nowSeconds dateNow - MerkleDistributor.startTs (readDistributor r)
    < MerkleDistributor.unlockPeriod (readDistributor r) ->
  exists ixs,
    outcome (prepareClaimInstructions E self dateNow data extParams) = inr ixs
    /\ ixs = map setup (claimSetup E extParams r)
             ++ [claimLocked (claimAccounts E self r) (programId self)]
    /\ filter isClaimInstruction ixs
       = [claimLocked (claimAccounts E self r) (programId self)].
Proof.
  intros Hr Hs _.
  exists (claimList E self dateNow data extParams r).
  split; [apply prepareClaimInstructions_returns; exact Hr |].
  rewrite filter_claim_claimList.
  unfold claimList, claimTail.
  destruct (readClaimStatus r) as [cs |]; [| contradiction].
  cbn. split; reflexivity.
Qed.

Lemma present_status_before_unlock_witness :
  claimReads sampleExternals (sampleClient (Some sampleClaimed) [OpaqueIx 5])
    (sampleClaim 100) (sampleInteract pricedOptions)
    (sampleReads (Some sampleClaimed) [OpaqueIx 5])
  /\ Some sampleClaimed <> None
  /\ nowSeconds 1200000 - 1000 < 500
  /\ exists ixs,
       outcome (prepareClaimInstructions sampleExternals
                  (sampleClient (Some sampleClaimed) [OpaqueIx 5]) 1200000
                  (sampleClaim 100) (sampleInteract pricedOptions)) = inr ixs
       /\ ixs = [setup (OpaqueIx 1); setup (OpaqueIx 5);
                 claimLocked
                   (claimAccounts sampleExternals
                      (sampleClient (Some sampleClaimed) [OpaqueIx 5])
                      (sampleReads (Some sampleClaimed) [OpaqueIx 5])) 9%N]
       /\ filter isClaimInstruction ixs
          = [claimLocked
               (claimAccounts sampleExternals
                  (sampleClient (Some sampleClaimed) [OpaqueIx 5])
                  (sampleReads (Some sampleClaimed) [OpaqueIx 5])) 9%N].
Proof.
  assert (Hr : claimReads sampleExternals
                 (sampleClient (Some sampleClaimed) [OpaqueIx 5])
                 (sampleClaim 100) (sampleInteract pricedOptions)
                 (sampleReads (Some sampleClaimed) [OpaqueIx 5])).
  { unfold claimReads; cbn. repeat split; reflexivity. }
  assert (Hs : Some sampleClaimed <> None) by discriminate.
  assert (Ht : nowSeconds 1200000 - 1000 < 500) by (vm_compute; reflexivity).
  split; [exact Hr | split; [exact Hs | split; [exact Ht |]]].
  exact (present_status_before_unlock sampleExternals
           (sampleClient (Some sampleClaimed) [OpaqueIx 5]) 1200000
           (sampleClaim 100) (sampleInteract pricedOptions)
           (sampleReads (Some sampleClaimed) [OpaqueIx 5]) Hr Hs Ht).
Defined.

(** C2: when a claim status is present, the composed list includes a
    claim-locked instruction, whatever the time and the locked amount. *)
Theorem present_status_claims_locked E self dateNow data extParams r :
  claimReads E self data extParams r ->
  readClaimStatus r <> None ->
  exists ixs,
    outcome (prepareClaimInstructions E self dateNow data extParams) = inr ixs
    /\ In (claimLocked (claimAccounts E self r) (programId self)) ixs
    /\ existsb isClaimLocked ixs = true.
Proof.
  intros Hr Hs.
  exists (claimList E self dateNow data extParams r).
  split; [apply prepareClaimInstructions_returns; exact Hr |].
  assert (Hin : In (claimLocked (claimAccounts E self r) (programId self))
                  (claimList E self dateNow data extParams r)).
  { unfold claimList, claimTail. apply in_or_app. right.
    destruct (readClaimStatus r) as [cs |]; [| contradiction].
    cbn. left. reflexivity. }
  split; [exact Hin |].
  apply existsb_exists. eexists. split; [exact Hin | reflexivity].
Qed.

Lemma present_status_claims_locked_witness :
  claimReads sampleExternals (sampleClient (Some sampleClaimed) [])
    (sampleClaim 0) (sampleInteract plainOptions)
    (sampleReads (Some sampleClaimed) [])
  /\ Some sampleClaimed <> None
  /\ exists ixs,
       outcome (prepareClaimInstructions sampleExternals
                  (sampleClient (Some sampleClaimed) []) 1200000
                  (sampleClaim 0) (sampleInteract plainOptions)) = inr ixs
       /\ In (claimLocked
                (claimAccounts sampleExternals
                   (sampleClient (Some sampleClaimed) [])
                   (sampleReads (Some sampleClaimed) [])) 9%N) ixs
       /\ existsb isClaimLocked ixs = true.
Proof.
  assert (Hr : claimReads sampleExternals (sampleClient (Some sampleClaimed) [])
                 (sampleClaim 0) (sampleInteract plainOptions)
                 (sampleReads (Some sampleClaimed) [])).
  { unfold claimReads; cbn. repeat split; reflexivity. }
  assert (Hs : Some sampleClaimed <> None) by discriminate.
  split; [exact Hr | split; [exact Hs |]].
  exact (present_status_claims_locked sampleExternals
           (sampleClient (Some sampleClaimed) []) 1200000 (sampleClaim 0)
           (sampleInteract plainOptions) (sampleReads (Some sampleClaimed) [])
           Hr Hs).
Defined.

(** C4, as stated, fails: when the claimant's token account has to be
    created first, the list of a first claim opens with that setup
    instruction, not with the new-claim. *)
Lemma new_claim_is_head_fails : ~ NewClaimIsHead.
Proof.
  intros H.
  specialize (H sampleExternals (sampleClient None [OpaqueIx 5]) 1400000
                (sampleClaim 100) (sampleInteract plainOptions)
                (sampleReads None [OpaqueIx 5])
                [setup (OpaqueIx 5);
                 newClaim (claimArgs (sampleClaim 100))
                   (claimAccounts sampleExternals (sampleClient None [OpaqueIx 5])
                      (sampleReads None [OpaqueIx 5])) 9%N]).
  assert (Hhd : option_map isNewClaim (Some (setup (OpaqueIx 5))) = Some true).
  { apply H.
    - unfold claimReads; cbn. repeat split; reflexivity.
    - reflexivity.
    - reflexivity. }
  discriminate Hhd.
Qed.

(** C4, amended: when no claim status exists, the new-claim instruction comes
    right after the setup instructions (base prefix and token-account
    creation): it is the first claim instruction of the list, and the first
    element when there is no setup instruction. *)
Theorem absent_status_new_claim_first E self dateNow data extParams r :
  claimReads E self data extParams r ->
  readClaimStatus r = None ->
  exists ixs rest,
    outcome (prepareClaimInstructions E self dateNow data extParams) = inr ixs
    /\ ixs = map setup (claimSetup E extParams r)
             ++ newClaim (claimArgs data) (claimAccounts E self r) (programId self)
                :: rest
    /\ hd_error (filter isClaimInstruction ixs)
       = Some (newClaim (claimArgs data) (claimAccounts E self r) (programId self))
    /\ (claimSetup E extParams r = [] ->
        option_map isNewClaim (hd_error ixs) = Some true).
Proof.
  intros Hr Hs.
  exists (claimList E self dateNow data extParams r).
  exists (if unlockDue None (IClaimData.amountLocked data) (nowSeconds dateNow)
               (readDistributor r)
          then [claimLocked (claimAccounts E self r) (programId self)] else []).
  split; [apply prepareClaimInstructions_returns; exact Hr |].
  rewrite filter_claim_claimList.
  unfold claimList, claimTail. rewrite Hs.
  split; [reflexivity |]. split; [reflexivity |].
  intros ->. reflexivity.
Qed.

Lemma absent_status_new_claim_first_witness :
  claimReads sampleExternals (sampleClient None [OpaqueIx 5]) (sampleClaim 100)
    (sampleInteract pricedOptions) (sampleReads None [OpaqueIx 5])
  /\ readClaimStatus (sampleReads None [OpaqueIx 5]) = None
  /\ exists ixs rest,
       outcome (prepareClaimInstructions sampleExternals
                  (sampleClient None [OpaqueIx 5]) 1600000 (sampleClaim 100)
                  (sampleInteract pricedOptions)) = inr ixs
       /\ ixs = map setup [OpaqueIx 1; OpaqueIx 5]
                ++ newClaim (claimArgs (sampleClaim 100))
                     (claimAccounts sampleExternals
                        (sampleClient None [OpaqueIx 5])
                        (sampleReads None [OpaqueIx 5])) 9%N
                   :: rest
       /\ hd_error (filter isClaimInstruction ixs)
          = Some (newClaim (claimArgs (sampleClaim 100))
                    (claimAccounts sampleExternals
                       (sampleClient None [OpaqueIx 5])
                       (sampleReads None [OpaqueIx 5])) 9%N)
       /\ ([OpaqueIx 1; OpaqueIx 5] = [] ->
           option_map isNewClaim (hd_error ixs) = Some true).
Proof.
  assert (Hr : claimReads sampleExternals (sampleClient None [OpaqueIx 5])
                 (sampleClaim 100) (sampleInteract pricedOptions)
                 (sampleReads None [OpaqueIx 5])).
  { unfold claimReads; cbn. repeat split; reflexivity. }
  split; [exact Hr | split; [reflexivity |]].
  exact (absent_status_new_claim_first sampleExternals
           (sampleClient None [OpaqueIx 5]) 1600000 (sampleClaim 100)
           (sampleInteract pricedOptions) (sampleReads None [OpaqueIx 5])
           Hr eq_refl).
Defined.

(** The claim instructions of a returned list: a new-claim, a claim-locked,
    or a new-claim followed by a claim-locked. *)
Lemma claimTail_shape E self dateNow data r :
  In (map isClaimLocked (claimTail E self dateNow data r))
     [[false]; [true]; [false; true]].
Proof.
  unfold claimTail.
  destruct (readClaimStatus r) as [cs |]; cbn.
  - right. left. reflexivity.
  - destruct (_ && _); cbn; auto.
Qed.

(** C5, as stated, fails: no composition returns a list in which both claim
    instructions are absent. *)
Lemma claims_never_absent : ~ (ClaimsInOrder /\ ClaimsMayBeAbsent).
Proof.
  intros [_ (E & self & dateNow & data & extParams & ixs & Hrun & Hshape)].
  apply prepareClaimInstructions_inv in Hrun as (r & _ & ->).
  rewrite claimShape_claimList in Hshape.
  pose proof (claimTail_shape E self dateNow data r) as Hin.
  rewrite Hshape in Hin. cbn in Hin.
  repeat (destruct Hin as [Hin | Hin]; [discriminate Hin |]).
  exact Hin.
Qed.

(** C5, amended: a returned list holds at most one new-claim and at most one
    claim-locked instruction, the new-claim first, and at least one of the
    two: its claim instructions are [new-claim], [claim-locked] or
    [new-claim; claim-locked]. *)
Theorem claims_in_order_one_present E self dateNow data extParams ixs :
  outcome (prepareClaimInstructions E self dateNow data extParams) = inr ixs ->
  In (claimShape ixs) [[false]; [true]; [false; true]]
  /\ (List.length (filter isNewClaim ixs) <= 1)%nat
  /\ (List.length (filter isClaimLocked ixs) <= 1)%nat.
Proof.
  intros Hrun.
  apply prepareClaimInstructions_inv in Hrun as (r & _ & ->).
  rewrite claimShape_claimList.
  split; [apply claimTail_shape |].
  unfold claimList, claimTail. rewrite !filter_app.
  assert (Hn : forall l, filter isNewClaim (map setup l) = []).
  { induction l as [| i l IH]; cbn; [reflexivity | exact IH]. }
  assert (Hl : forall l, filter isClaimLocked (map setup l) = []).
  { induction l as [| i l IH]; cbn; [reflexivity | exact IH]. }
  rewrite Hn, Hl.
  destruct (readClaimStatus r) as [cs |]; cbn.
  - split; [apply Nat.le_0_l | apply Nat.le_refl].
  - destruct (_ && _); cbn; split;
      first [apply Nat.le_refl | apply Nat.le_0_l].
Qed.

Lemma claims_in_order_one_present_witness :
  outcome (prepareClaimInstructions sampleExternals (sampleClient None [])
             1600000 (sampleClaim 100) (sampleInteract plainOptions))
  = inr (claimList sampleExternals (sampleClient None []) 1600000
           (sampleClaim 100) (sampleInteract plainOptions) (sampleReads None []))
  /\ (In (claimShape
            (claimList sampleExternals (sampleClient None []) 1600000
               (sampleClaim 100) (sampleInteract plainOptions)
               (sampleReads None [])))
         [[false]; [true]; [false; true]]
      /\ (List.length (filter isNewClaim
                    (claimList sampleExternals (sampleClient None []) 1600000
                       (sampleClaim 100) (sampleInteract plainOptions)
                       (sampleReads None []))) <= 1)%nat
      /\ (List.length (filter isClaimLocked
                    (claimList sampleExternals (sampleClient None []) 1600000
                       (sampleClaim 100) (sampleInteract plainOptions)
                       (sampleReads None []))) <= 1)%nat).
Proof.
  split; [reflexivity |].
  exact (claims_in_order_one_present sampleExternals (sampleClient None [])
           1600000 (sampleClaim 100) (sampleInteract plainOptions) _ eq_refl).
Defined.

Lemma existsb_claimLocked_setup (l : list SetupInstruction) :
  existsb isClaimLocked (map setup l) = false.
Proof. induction l as [| i l IH]; cbn; [reflexivity | exact IH]. Qed.

(** C6: with [amountLocked = 0] and no claim status, the unlock-due condition
    is false at every time, and the returned list has no claim-locked
    instruction. *)
Theorem zero_locked_never_due E self dateNow data extParams r :
  claimReads E self data extParams r ->
  IClaimData.amountLocked data = 0 ->
  readClaimStatus r = None ->
  unlockDue (readClaimStatus r) (IClaimData.amountLocked data)
    (nowSeconds dateNow) (readDistributor r) = false
  /\ exists ixs,
       outcome (prepareClaimInstructions E self dateNow data extParams) = inr ixs
       /\ existsb isClaimLocked ixs = false.
Proof.
  intros Hr H0 Hs.
  assert (Hdue : unlockDue (readClaimStatus r) (IClaimData.amountLocked data)
                   (nowSeconds dateNow) (readDistributor r) = false).
  { rewrite Hs, H0. reflexivity. }
  split; [exact Hdue |].
  exists (claimList E self dateNow data extParams r).
  split; [apply prepareClaimInstructions_returns; exact Hr |].
  unfold claimList, claimTail. rewrite Hdue, Hs.
  rewrite !existsb_app, existsb_claimLocked_setup. reflexivity.
Qed.

Lemma zero_locked_never_due_witness :
  claimReads sampleExternals (sampleClient None []) (sampleClaim 0)
    (sampleInteract plainOptions) (sampleReads None [])
  /\ IClaimData.amountLocked (sampleClaim 0) = 0
  /\ readClaimStatus (sampleReads None []) = None
  /\ unlockDue None 0 (nowSeconds 9000000000) sampleDistributor = false
  /\ exists ixs,
       outcome (prepareClaimInstructions sampleExternals (sampleClient None [])
                  9000000000 (sampleClaim 0) (sampleInteract plainOptions))
       = inr ixs
       /\ existsb isClaimLocked ixs = false.
Proof.
  assert (Hr : claimReads sampleExternals (sampleClient None []) (sampleClaim 0)
                 (sampleInteract plainOptions) (sampleReads None [])).
  { unfold claimReads; cbn. repeat split; reflexivity. }
  split; [exact Hr | split; [reflexivity | split; [reflexivity |]]].
  exact (zero_locked_never_due sampleExternals (sampleClient None []) 9000000000
           (sampleClaim 0) (sampleInteract plainOptions) (sampleReads None [])
           Hr eq_refl eq_refl).
Defined.

(** C7: once [now - startTs >= unlockPeriod], a composition for a claimant
    with [amountLocked > 0] includes the claim-locked instruction, whether a
    claim status exists or not. *)
Theorem unlock_elapsed_claims_locked E self dateNow data extParams r :
  claimReads E self data extParams r ->
  0 < IClaimData.amountLocked data ->
  MerkleDistributor.unlockPeriod (readDistributor r)
    <= nowSeconds dateNow - MerkleDistributor.startTs (readDistributor r) ->
  exists ixs,
    outcome (prepareClaimInstructions E self dateNow data extParams) = inr ixs
    /\ In (claimLocked (claimAccounts E self r) (programId self)) ixs
    /\ existsb isClaimLocked ixs = true.
Proof.
  intros Hr Hpos Hdue.
  exists (claimList E self dateNow data extParams r).
  split; [apply prepareClaimInstructions_returns; exact Hr |].
  assert (Hu : unlockDue (readClaimStatus r) (IClaimData.amountLocked data)
                 (nowSeconds dateNow) (readDistributor r) = true).
  { unfold unlockDue. destruct (readClaimStatus r); [reflexivity |].
    apply andb_true_iff. split.
    - apply Z.gtb_lt. exact Hpos.
    - apply Z.geb_le. exact Hdue. }
  assert (Hin : In (claimLocked (claimAccounts E self r) (programId self))
                  (claimList E self dateNow data extParams r)).
  { unfold claimList, claimTail. rewrite Hu.
    apply in_or_app. right. apply in_or_app. right. left. reflexivity. }
  split; [exact Hin |].
  apply existsb_exists. eexists. split; [exact Hin | reflexivity].
Qed.

Lemma unlock_elapsed_claims_locked_witness :
  claimReads sampleExternals (sampleClient None []) (sampleClaim 100)
    (sampleInteract plainOptions) (sampleReads None [])
  /\ 0 < 100
  /\ 500 <= nowSeconds 1600000 - 1000
  /\ exists ixs,
       outcome (prepareClaimInstructions sampleExternals (sampleClient None [])
                  1600000 (sampleClaim 100) (sampleInteract plainOptions))
       = inr ixs
       /\ In (claimLocked
                (claimAccounts sampleExternals (sampleClient None [])
                   (sampleReads None [])) 9%N) ixs
       /\ existsb isClaimLocked ixs = true.
Proof.
  assert (Hr : claimReads sampleExternals (sampleClient None []) (sampleClaim 100)
                 (sampleInteract plainOptions) (sampleReads None [])).
  { unfold claimReads; cbn. repeat split; reflexivity. }
  assert (Hpos : 0 < 100) by reflexivity.
  assert (Hdue : 500 <= nowSeconds 1600000 - 1000) by (vm_compute; discriminate).
  split; [exact Hr | split; [exact Hpos | split; [exact Hdue |]]].
  exact (unlock_elapsed_claims_locked sampleExternals (sampleClient None [])
           1600000 (sampleClaim 100) (sampleInteract plainOptions)
           (sampleReads None []) Hr Hpos Hdue).
Defined.

(** ** Creation *)

(** With a zero-free window [0 < start < end] the test of the source is the
    comparison of the window with the unlock period. *)
Lemma vestingRejected_window dateNow data :
  0 < ICreateDistributorData.startVestingTs data
    < ICreateDistributorData.endVestingTs data ->
  vestingRejected dateNow data = true
  <-> ICreateDistributorData.endVestingTs data
      - ICreateDistributorData.startVestingTs data
      < ICreateDistributorData.unlockPeriod data.
Proof.
  intros [Hs He]. unfold vestingRejected, BN_of_number.
  destruct (Z.eqb_spec (ICreateDistributorData.endVestingTs data) 0) as [H0 | _];
    [lia |].
  destruct (Z.eqb_spec (ICreateDistributorData.startVestingTs data) 0) as [H0 | _];
    [lia |].
  rewrite andb_true_iff, Z.gtb_lt, Z.ltb_lt. tauto.
Qed.

(** A creation whose key, mint and reads are available ends on the vesting
    test, after the reads [createReads]. *)
Lemma createNumbersSafe_fields data :
  createNumbersSafe data = true ->
  safeNumber (ICreateDistributorData.version data) = true
  /\ safeNumber (ICreateDistributorData.unlockPeriod data) = true
  /\ safeNumber (ICreateDistributorData.startVestingTs data) = true
  /\ safeNumber (ICreateDistributorData.endVestingTs data) = true
  /\ safeNumber (ICreateDistributorData.clawbackStartTs data) = true.
Proof.
  unfold createNumbersSafe. rewrite !andb_true_iff. tauto.
Qed.

Lemma prepareCreateInstructions_reads E self dateNow data extParams k mint ma tp :
  publicKey (ICreateSolanaExt.invoker extParams) = Some k ->
  createMint E data extParams = Some mint ->
  mintAndProgram (connection self) mint = Got (ma, tp) ->
  createNumbersSafe data = true ->
  (ICreateSolanaExt.isNative extParams = true ->
   exists w, wrappedAccount (connection self) k
               (ICreateDistributorData.maxTotalClaim data) = Got w) ->
  trace (prepareCreateInstructions E self dateNow data extParams)
  = createReads mint k (ICreateSolanaExt.isNative extParams)
  /\ if vestingRejected dateNow data
     then outcome (prepareCreateInstructions E self dateNow data extParams)
          = inl (Thrown unlockPeriodTooLong)
     else exists res,
         outcome (prepareCreateInstructions E self dateNow data extParams)
         = inr res.
Proof.
  intros Hk Hmint Hm Hsafe Hw.
  destruct (createNumbersSafe_fields data Hsafe) as (Hv & Hu & Hs & He & Hc).
  unfold prepareCreateInstructions, createMint, createReads, vestingRejected in *.
  rewrite Hk.
  destruct (ICreateSolanaExt.isNative extParams) eqn:Hn.
  - destruct (Hw eq_refl) as [w Hw']. injection Hmint as <-.
    run_async. rewrite Hm, Hw', Hv, Hu, Hs, He, Hc. cbn.
    destruct (_ && _); cbn; eauto.
  - run_async. rewrite Hmint, Hm, Hv, Hu, Hs, He, Hc. cbn.
    destruct (_ && _); cbn; eauto.
Qed.

(** C3, as stated, fails: without an invoker key a creation with a window of
    1000 and an unlock period of 500 fails with InvalidInput. *)
Lemma vesting_invariant_fails : ~ VestingInvariant.
Proof.
  intros H.
  destruct (H sampleExternals (sampleClient None []) 1700000000000
              (sampleCreate 1000 2000 500)
              (sampleCreateExt disconnectedInvoker false)) as [[Hiff _] _].
  - cbn. lia.
  - assert (Hlt : 2000 - 1000 < 500).
    { apply Hiff. exists (Thrown invokerKeyMissing). split; reflexivity. }
    lia.
Qed.

(** C3, amended: for [0 < startVestingTs < endVestingTs], with the invoker's
    key present, the mint lookup (and, for the native asset, the
    wrapped-account read) answered, and the numeric fields safe numbers (below
    2^53 in absolute value, so that [new BN] takes them), creation fails with
    InvalidInput if and only if [endVestingTs - startVestingTs < unlockPeriod],
    and then with the unlock-period message; otherwise it returns its
    result. *)
Theorem vesting_invariant_after_reads E self dateNow data extParams k mint ma tp :
  publicKey (ICreateSolanaExt.invoker extParams) = Some k ->
  createMint E data extParams = Some mint ->
  mintAndProgram (connection self) mint = Got (ma, tp) ->
  createNumbersSafe data = true ->
  (ICreateSolanaExt.isNative extParams = true ->
   exists w, wrappedAccount (connection self) k
               (ICreateDistributorData.maxTotalClaim data) = Got w) ->
  0 < ICreateDistributorData.startVestingTs data
    < ICreateDistributorData.endVestingTs data ->
  ((exists e,
       outcome (prepareCreateInstructions E self dateNow data extParams) = inl e
       /\ isInvalidInput e = true)
   <-> ICreateDistributorData.endVestingTs data
       - ICreateDistributorData.startVestingTs data
       < ICreateDistributorData.unlockPeriod data)
  /\ (ICreateDistributorData.endVestingTs data
      - ICreateDistributorData.startVestingTs data
      < ICreateDistributorData.unlockPeriod data ->
      outcome (prepareCreateInstructions E self dateNow data extParams)
      = inl (Thrown unlockPeriodTooLong))
  /\ (ICreateDistributorData.unlockPeriod data
      <= ICreateDistributorData.endVestingTs data
         - ICreateDistributorData.startVestingTs data ->
      exists res,
        outcome (prepareCreateInstructions E self dateNow data extParams)
        = inr res).
Proof.
  intros Hk Hmint Hm Hsafe Hw Hwin.
  destruct (prepareCreateInstructions_reads E self dateNow data extParams
              k mint ma tp Hk Hmint Hm Hsafe Hw) as [_ Hout].
  pose proof (vestingRejected_window dateNow data Hwin) as Hrej.
  destruct (vestingRejected dateNow data) eqn:Hv.
  - assert (Hlt : ICreateDistributorData.endVestingTs data
                  - ICreateDistributorData.startVestingTs data
                  < ICreateDistributorData.unlockPeriod data)
      by (apply Hrej; reflexivity).
    split; [| split].
    + split; [intros _; exact Hlt |].
      intros _. exists (Thrown unlockPeriodTooLong).
      split; [exact Hout | reflexivity].
    + intros _. exact Hout.
    + intros Hge. lia.
  - assert (Hge : ~ ICreateDistributorData.endVestingTs data
                    - ICreateDistributorData.startVestingTs data
                    < ICreateDistributorData.unlockPeriod data).
    { intros Hlt. apply Hrej in Hlt. discriminate Hlt. }
    destruct Hout as [res Hres].
    split; [| split].
    + split; [| intros Hlt; contradiction].
      intros (e & He & _). rewrite Hres in He. discriminate He.
    + intros Hlt. contradiction.
    + intros _. exists res. exact Hres.
Qed.

Lemma vesting_invariant_after_reads_witness :
  publicKey (ICreateSolanaExt.invoker (sampleCreateExt sampleInvoker true))
  = Some 6%N
  /\ createMint sampleExternals (sampleCreate 1000 1400 500)
       (sampleCreateExt sampleInvoker true) = Some 1%N
  /\ mintAndProgram (connection (sampleClient None [])) 1%N
     = Got ({| decimals := 9 |}, 5%N)
  /\ createNumbersSafe (sampleCreate 1000 1400 500) = true
  /\ (ICreateSolanaExt.isNative (sampleCreateExt sampleInvoker true) = true ->
      exists w, wrappedAccount (connection (sampleClient None [])) 6%N
                  (ICreateDistributorData.maxTotalClaim (sampleCreate 1000 1400 500))
                = Got w)
  /\ 0 < 1000 < 1400
  /\ 1400 - 1000 < 500
  /\ outcome (prepareCreateInstructions sampleExternals (sampleClient None [])
                1700000000000 (sampleCreate 1000 1400 500)
                (sampleCreateExt sampleInvoker true))
     = inl (Thrown unlockPeriodTooLong).
Proof.
  assert (Hw : ICreateSolanaExt.isNative (sampleCreateExt sampleInvoker true) = true ->
               exists w, wrappedAccount (connection (sampleClient None [])) 6%N
                           (ICreateDistributorData.maxTotalClaim
                              (sampleCreate 1000 1400 500))
                         = Got w).
  { intros _. exists [OpaqueIx 7; OpaqueIx 8]. reflexivity. }
  assert (Hwin : 0 < 1000 < 1400) by (split; reflexivity).
  assert (Hlt : 1400 - 1000 < 500) by reflexivity.
  split; [reflexivity |]. split; [reflexivity |]. split; [reflexivity |].
  split; [reflexivity |].
  split; [exact Hw |]. split; [exact Hwin |]. split; [exact Hlt |].
  exact (proj1 (proj2 (vesting_invariant_after_reads sampleExternals
                         (sampleClient None []) 1700000000000
                         (sampleCreate 1000 1400 500)
                         (sampleCreateExt sampleInvoker true)
                         6%N 1%N {| decimals := 9 |} 5%N
                         eq_refl eq_refl eq_refl eq_refl Hw Hwin))
           Hlt).
Defined.

(** A window that covers the unlock period: the instructions of a creation
    funded with the native asset, in order. *)
Example create_native_in_order :
  option_map (fun res => map isSetup (snd res))
    (match outcome (prepareCreateInstructions sampleExternals (sampleClient None [])
                      1700000000000 (sampleCreate 1000 2000 500)
                      (sampleCreateExt sampleInvoker true))
     with inr res => Some res | inl _ => None end)
  = Some [true; true; false; false].
Proof. reflexivity. Qed.

(** A failed mint lookup comes before the vesting test and hides it. *)
Example failed_lookup_hides_vesting_error :
  prepareCreateInstructions sampleExternals (sampleClient None []) 1700000000000
    {| ICreateDistributorData.mint := "distributor";
       ICreateDistributorData.version := 3;
       ICreateDistributorData.root := [];
       ICreateDistributorData.maxTotalClaim := 10;
       ICreateDistributorData.maxNumNodes := 1;
       ICreateDistributorData.unlockPeriod := 500;
       ICreateDistributorData.startVestingTs := 1000;
       ICreateDistributorData.endVestingTs := 1400;
       ICreateDistributorData.clawbackStartTs := 0;
       ICreateDistributorData.claimsClosable := false |}
    (sampleCreateExt sampleInvoker false)
  = ([NetGetMintAndProgram 40%N], inl (Upstream "mint not found")).
Proof. reflexivity. Qed.

(** A number that is not safe ends the creation at its conversion, after the
    mint lookup and before the wrapped-account read and the vesting test: an
    unlock period of 2^53 is not rejected as too long. *)
Example unsafe_number_ends_creation :
  prepareCreateInstructions sampleExternals (sampleClient None []) 1700000000000
    (sampleCreate 1000 2000 9007199254740992) (sampleCreateExt sampleInvoker true)
  = ([NetGetMintAndProgram 1%N], inl (Upstream assertionFailed))
  /\ isInvalidInput (Upstream assertionFailed) = false.
Proof. split; reflexivity. Qed.

(** ** Failures and the network *)

(** The claim and clawback composers throw InvalidInput only for a missing
    key, before they read anything. *)
Lemma prepareClaimInstructions_fails_fast E self dateNow data extParams :
  FailsFast (prepareClaimInstructions E self dateNow data extParams).
Proof.
  unfold FailsFast, prepareClaimInstructions. intros e.
  destruct (publicKey (IInteractSolanaExt.invoker extParams)); [| reflexivity].
  run_async.
  destruct (newPublicKey E (IClaimData.id data)) as [d |]; cbn;
    [| intros [= <-]; discriminate].
  destruct (distributorAccount (connection self) d) as [s | [dist |]]; cbn;
    try (intros [= <-]; discriminate).
  destruct (mintAndProgram (connection self) (MerkleDistributor.mint dist))
    as [s | [ma tp]]; cbn; try (intros [= <-]; discriminate).
  destruct (ataBatch _ _ _ _ _) as [s | atas]; cbn;
    try (intros [= <-]; discriminate).
  destruct (claimStatusAccount _ _) as [s | cs]; cbn;
    intros [= <-]; discriminate.
Qed.

Lemma prepareClawbackInstructions_fails_fast E self data extParams :
  FailsFast (prepareClawbackInstructions E self data extParams).
Proof.
  unfold FailsFast, prepareClawbackInstructions. intros e.
  destruct (publicKey (IInteractSolanaExt.invoker extParams)); [| reflexivity].
  run_async.
  destruct (newPublicKey E (IClawbackData.id data)) as [d |]; cbn;
    [| intros [= <-]; discriminate].
  destruct (distributorAccount (connection self) d) as [s | [dist |]]; cbn;
    try (intros [= <-]; discriminate).
  destruct (mintAndProgram (connection self) (MerkleDistributor.mint dist))
    as [s | [ma tp]]; cbn; try (intros [= <-]; discriminate).
  destruct (ataBatch _ _ _ _ _) as [s | atas]; cbn;
    intros [= <-]; discriminate.
Qed.

(** A creation that throws the unlock-period error has looked up the mint
    (and read the wrapped account, for the native asset) before. *)
Lemma prepareCreateInstructions_vesting_trace E self dateNow data extParams :
  outcome (prepareCreateInstructions E self dateNow data extParams)
  = inl (Thrown unlockPeriodTooLong) ->
  exists k mint,
    publicKey (ICreateSolanaExt.invoker extParams) = Some k
    /\ createMint E data extParams = Some mint
    /\ trace (prepareCreateInstructions E self dateNow data extParams)
       = createReads mint k (ICreateSolanaExt.isNative extParams).
Proof.
  unfold prepareCreateInstructions, createMint, createReads.
  destruct (publicKey (ICreateSolanaExt.invoker extParams)) as [k |];
    [| discriminate].
  run_async.
  destruct (ICreateSolanaExt.isNative extParams).
  - cbn. destruct (mintAndProgram (connection self) (NATIVE_MINT E))
      as [s | [ma tp]]; cbn; [discriminate |].
    split_numbers; try discriminate.
    destruct (wrappedAccount _ _ _) as [s | w]; cbn; [discriminate |].
    destruct (_ && _); cbn; [| discriminate].
    intros _. exists k, (NATIVE_MINT E). auto.
  - destruct (newPublicKey E (ICreateDistributorData.mint data)) as [m |]; cbn;
      [| discriminate].
    destruct (mintAndProgram (connection self) m) as [s | [ma tp]]; cbn;
      [discriminate |].
    split_numbers; try discriminate.
    destruct (_ && _); cbn; [| discriminate].
    intros _. exists k, m. auto.
Qed.

(** The only InvalidInput error of the claim composer is the missing key. *)
Lemma prepareClaimInstructions_invalid_input E self dateNow data extParams e :
  outcome (prepareClaimInstructions E self dateNow data extParams) = inl e ->
  isInvalidInput e = true ->
  publicKey (IInteractSolanaExt.invoker extParams) = None
  /\ e = Thrown invokerKeyMissing.
Proof.
  unfold prepareClaimInstructions.
  destruct (publicKey (IInteractSolanaExt.invoker extParams));
    [| intros [= <-] _; split; reflexivity].
  run_async.
  destruct (newPublicKey E (IClaimData.id data)) as [d |]; cbn;
    [| intros [= <-]; discriminate].
  destruct (distributorAccount (connection self) d) as [s | [dist |]]; cbn;
    try (intros [= <-]; discriminate).
  destruct (mintAndProgram (connection self) (MerkleDistributor.mint dist))
    as [s | [ma tp]]; cbn; try (intros [= <-]; discriminate).
  destruct (ataBatch _ _ _ _ _) as [s | atas]; cbn;
    try (intros [= <-]; discriminate).
  destruct (claimStatusAccount _ _) as [s | cs]; cbn;
    intros [= <-]; discriminate.
Qed.

(** The only InvalidInput error of the clawback composer is the missing
    key. *)
Lemma prepareClawbackInstructions_invalid_input E self data extParams e :
  outcome (prepareClawbackInstructions E self data extParams) = inl e ->
  isInvalidInput e = true ->
  publicKey (IInteractSolanaExt.invoker extParams) = None
  /\ e = Thrown invokerKeyMissing.
Proof.
  unfold prepareClawbackInstructions.
  destruct (publicKey (IInteractSolanaExt.invoker extParams));
    [| intros [= <-] _; split; reflexivity].
  run_async.
  destruct (newPublicKey E (IClawbackData.id data)) as [d |]; cbn;
    [| intros [= <-]; discriminate].
  destruct (distributorAccount (connection self) d) as [s | [dist |]]; cbn;
    try (intros [= <-]; discriminate).
  destruct (mintAndProgram (connection self) (MerkleDistributor.mint dist))
    as [s | [ma tp]]; cbn; try (intros [= <-]; discriminate).
  destruct (ataBatch _ _ _ _ _) as [s | atas]; cbn;
    intros [= <-]; discriminate.
Qed.

(** The InvalidInput errors of the creation composer are the missing key and
    the unlock-period error. *)
Lemma prepareCreateInstructions_invalid_input E self dateNow data extParams e :
  outcome (prepareCreateInstructions E self dateNow data extParams) = inl e ->
  isInvalidInput e = true ->
  (publicKey (ICreateSolanaExt.invoker extParams) = None
   /\ e = Thrown invokerKeyMissing)
  \/ (exists k, publicKey (ICreateSolanaExt.invoker extParams) = Some k
                /\ e = Thrown unlockPeriodTooLong).
Proof.
  unfold prepareCreateInstructions.
  destruct (publicKey (ICreateSolanaExt.invoker extParams)) as [k |];
    [| intros [= <-] _; left; split; reflexivity].
  run_async.
  destruct (ICreateSolanaExt.isNative extParams).
  - cbn. destruct (mintAndProgram (connection self) (NATIVE_MINT E))
      as [s | [ma tp]]; cbn; [intros [= <-]; discriminate |].
    split_numbers; try (intros [= <-]; discriminate).
    destruct (wrappedAccount _ _ _) as [s | w]; cbn;
      [intros [= <-]; discriminate |].
    destruct (_ && _); cbn; [| discriminate].
    intros [= <-] _. right. exists k. split; reflexivity.
  - destruct (newPublicKey E (ICreateDistributorData.mint data)) as [m |]; cbn;
      [| intros [= <-]; discriminate].
    destruct (mintAndProgram (connection self) m) as [s | [ma tp]]; cbn;
      [intros [= <-]; discriminate |].
    split_numbers; try (intros [= <-]; discriminate).
    destruct (_ && _); cbn; [| discriminate].
    intros [= <-] _. right. exists k. split; reflexivity.
Qed.

(** C8, as stated, fails: a creation with a window of 400 and an unlock
    period of 500 throws InvalidInput after it has looked up the mint. *)
Lemma invalid_input_after_lookup : ~ InvalidInputBeforeNetwork.
Proof.
  intros [Hcreate _].
  specialize (Hcreate sampleExternals (sampleClient None []) 1700000000000
                (sampleCreate 1000 1400 500)
                (sampleCreateExt sampleInvoker false)
                (Thrown unlockPeriodTooLong) eq_refl eq_refl).
  discriminate Hcreate.
Qed.

(** C8, amended: a missing invoker key is thrown by the three composers
    before any network read, and it is the only InvalidInput failure of the
    claim and clawback composers: when one of them fails with InvalidInput,
    the key is missing, the error is the missing-key error and nothing was
    read.  The unlock-period error of a creation is thrown after the mint
    lookup and, for the native asset, the wrapped-account read, and after
    nothing else; it is the only other InvalidInput failure of a creation. *)
Theorem invalid_input_and_network_reads :
  (forall E self dateNow data extParams,
      publicKey (ICreateSolanaExt.invoker extParams) = None ->
      prepareCreateInstructions E self dateNow data extParams
      = ([], inl (Thrown invokerKeyMissing)))
  /\ (forall E self dateNow data extParams,
         publicKey (IInteractSolanaExt.invoker extParams) = None ->
         prepareClaimInstructions E self dateNow data extParams
         = ([], inl (Thrown invokerKeyMissing)))
  /\ (forall E self data extParams,
         publicKey (IInteractSolanaExt.invoker extParams) = None ->
         prepareClawbackInstructions E self data extParams
         = ([], inl (Thrown invokerKeyMissing)))
  /\ (forall E self dateNow data extParams e,
         outcome (prepareClaimInstructions E self dateNow data extParams) = inl e ->
         isInvalidInput e = true ->
         publicKey (IInteractSolanaExt.invoker extParams) = None
         /\ e = Thrown invokerKeyMissing
         /\ trace (prepareClaimInstructions E self dateNow data extParams) = [])
  /\ (forall E self data extParams e,
         outcome (prepareClawbackInstructions E self data extParams) = inl e ->
         isInvalidInput e = true ->
         publicKey (IInteractSolanaExt.invoker extParams) = None
         /\ e = Thrown invokerKeyMissing
         /\ trace (prepareClawbackInstructions E self data extParams) = [])
  /\ (forall E self dateNow data extParams,
         outcome (prepareCreateInstructions E self dateNow data extParams)
         = inl (Thrown unlockPeriodTooLong) ->
         exists k mint,
           publicKey (ICreateSolanaExt.invoker extParams) = Some k
           /\ createMint E data extParams = Some mint
           /\ trace (prepareCreateInstructions E self dateNow data extParams)
              = createReads mint k (ICreateSolanaExt.isNative extParams))
  /\ (forall E self dateNow data extParams e,
         outcome (prepareCreateInstructions E self dateNow data extParams) = inl e ->
         isInvalidInput e = true ->
         (publicKey (ICreateSolanaExt.invoker extParams) = None
          /\ e = Thrown invokerKeyMissing)
         \/ (exists k, publicKey (ICreateSolanaExt.invoker extParams) = Some k
                       /\ e = Thrown unlockPeriodTooLong)).
Proof.
  split; [| split; [| split; [| split; [| split; [| split]]]]].
  - intros E self dateNow data extParams Hk.
    unfold prepareCreateInstructions. rewrite Hk. reflexivity.
  - intros E self dateNow data extParams Hk.
    unfold prepareClaimInstructions. rewrite Hk. reflexivity.
  - intros E self data extParams Hk.
    unfold prepareClawbackInstructions. rewrite Hk. reflexivity.
  - intros E self dateNow data extParams e Hout Hinvalid.
    destruct (prepareClaimInstructions_invalid_input _ _ _ _ _ _ Hout Hinvalid)
      as [Hk He].
    split; [exact Hk | split; [exact He |]].
    exact (prepareClaimInstructions_fails_fast _ _ _ _ _ _ Hout Hinvalid).
  - intros E self data extParams e Hout Hinvalid.
    destruct (prepareClawbackInstructions_invalid_input _ _ _ _ _ Hout Hinvalid)
      as [Hk He].
    split; [exact Hk | split; [exact He |]].
    exact (prepareClawbackInstructions_fails_fast _ _ _ _ _ Hout Hinvalid).
  - exact prepareCreateInstructions_vesting_trace.
  - exact prepareCreateInstructions_invalid_input.
Qed.

Lemma invalid_input_and_network_reads_witness :
  prepareClaimInstructions sampleExternals (sampleClient None []) 1200000
    (sampleClaim 100)
    {| IInteractSolanaExt.invoker := disconnectedInvoker;
       IInteractSolanaExt.options := plainOptions |}
  = ([], inl (Thrown invokerKeyMissing))
  /\ (exists k mint,
       publicKey (ICreateSolanaExt.invoker (sampleCreateExt sampleInvoker true))
       = Some k
       /\ createMint sampleExternals (sampleCreate 1000 1400 500)
            (sampleCreateExt sampleInvoker true) = Some mint
       /\ trace (prepareCreateInstructions sampleExternals (sampleClient None [])
                   1700000000000 (sampleCreate 1000 1400 500)
                   (sampleCreateExt sampleInvoker true))
          = createReads mint k true)
  /\ (publicKey disconnectedInvoker = None
      /\ Thrown invokerKeyMissing = Thrown invokerKeyMissing
      /\ trace (prepareClaimInstructions sampleExternals (sampleClient None [])
                  1200000 (sampleClaim 100)
                  {| IInteractSolanaExt.invoker := disconnectedInvoker;
                     IInteractSolanaExt.options := plainOptions |}) = []).
Proof.
  split; [| split].
  - exact (proj1 (proj2 invalid_input_and_network_reads) sampleExternals
             (sampleClient None []) 1200000 (sampleClaim 100)
             {| IInteractSolanaExt.invoker := disconnectedInvoker;
                IInteractSolanaExt.options := plainOptions |} eq_refl).
  - exact (proj1 (proj2 (proj2 (proj2 (proj2 (proj2
                    invalid_input_and_network_reads)))))
             sampleExternals (sampleClient None []) 1700000000000
             (sampleCreate 1000 1400 500) (sampleCreateExt sampleInvoker true)
             eq_refl).
  - exact (proj1 (proj2 (proj2 (proj2 invalid_input_and_network_reads)))
             sampleExternals (sampleClient None []) 1200000 (sampleClaim 100)
             {| IInteractSolanaExt.invoker := disconnectedInvoker;
                IInteractSolanaExt.options := plainOptions |}
             (Thrown invokerKeyMissing) eq_refl eq_refl).
Defined.

(** ** Determinism *)


(** The clock is read inside the method: the same request on the same cluster
    gives another list 200 seconds later. *)
Example claim_list_depends_on_clock :
  prepareClaimInstructions sampleExternals (sampleClient None []) 1400000
    (sampleClaim 100) (sampleInteract plainOptions)
  <> prepareClaimInstructions sampleExternals (sampleClient None []) 1600000
       (sampleClaim 100) (sampleInteract plainOptions).
Proof. discriminate. Qed.



(** ** Absent accounts *)

(** C10: when the cluster has no account at the distributor address, the
    claim and the clawback composers throw "Couldn't get account info"; an
    absent claim-status account is no failure: the claim composer returns its
    list. *)
Theorem absent_distributor_is_an_error E self dateNow data cdata extParams k d d' :
  publicKey (IInteractSolanaExt.invoker extParams) = Some k ->
  newPublicKey E (IClaimData.id data) = Some d ->
  distributorAccount (connection self) d = Got None ->
  newPublicKey E (IClawbackData.id cdata) = Some d' ->
  distributorAccount (connection self) d' = Got None ->
  prepareClaimInstructions E self dateNow data extParams
  = ([NetFetchDistributor d], inl (Thrown accountInfoMissing))
  /\ prepareClawbackInstructions E self cdata extParams
     = ([NetFetchDistributor d'], inl (Thrown accountInfoMissing))
  /\ (forall self' data' r,
         claimReads E self' data' extParams r ->
         readClaimStatus r = None ->
         exists ixs,
           outcome (prepareClaimInstructions E self' dateNow data' extParams)
           = inr ixs
           /\ In (newClaim (claimArgs data') (claimAccounts E self' r)
                    (programId self')) ixs).
Proof.
  intros Hk Hd Hf Hd' Hf'.
  split; [| split].
  - unfold prepareClaimInstructions. rewrite Hk. run_async.
    rewrite Hd; cbn. rewrite Hf; cbn. reflexivity.
  - unfold prepareClawbackInstructions. rewrite Hk. run_async.
    rewrite Hd'; cbn. rewrite Hf'; cbn. reflexivity.
  - intros self' data' r Hr Hs.
    exists (claimList E self' dateNow data' extParams r).
    split; [apply prepareClaimInstructions_returns; exact Hr |].
    unfold claimList, claimTail. rewrite Hs.
    apply in_or_app. right. apply in_or_app. left. left. reflexivity.
Qed.

Lemma absent_distributor_is_an_error_witness :
  publicKey (IInteractSolanaExt.invoker (sampleInteract plainOptions)) = Some 6%N
  /\ newPublicKey sampleExternals (IClaimData.id (sampleClaim 100)) = Some 40%N
  /\ distributorAccount (connection emptyClient) 40%N = Got None
  /\ newPublicKey sampleExternals (IClawbackData.id sampleClawback) = Some 40%N
  /\ prepareClaimInstructions sampleExternals emptyClient 1600000
       (sampleClaim 100) (sampleInteract plainOptions)
     = ([NetFetchDistributor 40%N], inl (Thrown accountInfoMissing))
  /\ prepareClawbackInstructions sampleExternals emptyClient sampleClawback
       (sampleInteract plainOptions)
     = ([NetFetchDistributor 40%N], inl (Thrown accountInfoMissing)).
Proof.
  split; [reflexivity |]. split; [reflexivity |]. split; [reflexivity |].
  split; [reflexivity |].
  pose proof (absent_distributor_is_an_error sampleExternals emptyClient 1600000
                (sampleClaim 100) sampleClawback (sampleInteract plainOptions)
                6%N 40%N 40%N eq_refl eq_refl eq_refl eq_refl eq_refl)
    as [Hclaim [Hclawback _]].
  split; [exact Hclaim | exact Hclawback].
Defined.

(** ** Further properties of the claim composer *)

(** X1: a claim composition that returns has made exactly four reads, in this
    order: the distributor at [data.id], the mint of that distributor, the
    token account of the invoker for that mint, and last the claim status at
    the address derived from program, distributor and invoker. *)
Theorem claim_reads_in_order E self dateNow data extParams ixs :
  outcome (prepareClaimInstructions E self dateNow data extParams) = inr ixs ->
  exists r,
    claimReads E self data extParams r
    /\ trace (prepareClaimInstructions E self dateNow data extParams)
       = [NetFetchDistributor (readDistributorKey r);
          NetGetMintAndProgram (MerkleDistributor.mint (readDistributor r));
          NetCheckOrCreateAta [readInvokerKey r]
            (MerkleDistributor.mint (readDistributor r));
          NetFetchClaimStatus
            (getClaimantStatusPda E (programId self) (readDistributorKey r)
               (readInvokerKey r))].
Proof.
  intros Hrun.
  apply prepareClaimInstructions_inv in Hrun as (r & Hr & _).
  exists r. split; [exact Hr |].
  apply (prepareClaimInstructions_trace E self dateNow data extParams r Hr).
Qed.

Lemma claim_reads_in_order_witness :
  outcome (prepareClaimInstructions sampleExternals (sampleClient None [])
             1400000 (sampleClaim 100) (sampleInteract plainOptions))
  = inr (claimList sampleExternals (sampleClient None []) 1400000
           (sampleClaim 100) (sampleInteract plainOptions) (sampleReads None []))
  /\ exists r,
       claimReads sampleExternals (sampleClient None []) (sampleClaim 100)
         (sampleInteract plainOptions) r
       /\ trace (prepareClaimInstructions sampleExternals (sampleClient None [])
                   1400000 (sampleClaim 100) (sampleInteract plainOptions))
          = [NetFetchDistributor (readDistributorKey r);
             NetGetMintAndProgram (MerkleDistributor.mint (readDistributor r));
             NetCheckOrCreateAta [readInvokerKey r]
               (MerkleDistributor.mint (readDistributor r));
             NetFetchClaimStatus
               (getClaimantStatusPda sampleExternals 9%N (readDistributorKey r)
                  (readInvokerKey r))].
Proof.
  split; [reflexivity |].
  exact (claim_reads_in_order sampleExternals (sampleClient None []) 1400000
           (sampleClaim 100) (sampleInteract plainOptions) _ eq_refl).
Defined.

Lemma existsb_claimLocked_claimList E self dateNow data extParams r :
  existsb isClaimLocked (claimList E self dateNow data extParams r)
  = unlockDue (readClaimStatus r) (IClaimData.amountLocked data)
      (nowSeconds dateNow) (readDistributor r).
Proof.
  unfold claimList, claimTail.
  rewrite !existsb_app, existsb_claimLocked_setup.
  destruct (readClaimStatus r); cbn.
  - reflexivity.
  - destruct (_ && _); reflexivity.
Qed.

Lemma nowSeconds_monotone t t' : t <= t' -> nowSeconds t <= nowSeconds t'.
Proof. intros H. unfold nowSeconds. apply Z.div_le_mono; lia. Qed.

Lemma unlockDue_monotone status locked n n' distributor :
  n <= n' ->
  unlockDue status locked n distributor = true ->
  unlockDue status locked n' distributor = true.
Proof.
  intros Hle. unfold unlockDue. destruct status; [reflexivity |].
  rewrite !andb_true_iff, !Z.geb_le. intros [Hpos Hdue].
  split; [exact Hpos | lia].
Qed.

(** X2: the unlock never closes again.  If a composition at one time returns
    a list with the claim-locked instruction, a composition at any later time
    on the same cluster returns the very same list. *)
Theorem claim_locked_stays E self dateNow dateNow' data extParams ixs :
  dateNow <= dateNow' ->
  outcome (prepareClaimInstructions E self dateNow data extParams) = inr ixs ->
  existsb isClaimLocked ixs = true ->
  outcome (prepareClaimInstructions E self dateNow' data extParams) = inr ixs.
Proof.
  intros Hle Hrun Hlocked.
  apply prepareClaimInstructions_inv in Hrun as (r & Hr & ->).
  rewrite existsb_claimLocked_claimList in Hlocked.
  pose proof (unlockDue_monotone _ _ _ _ _ (nowSeconds_monotone _ _ Hle) Hlocked)
    as Hlater.
  rewrite (prepareClaimInstructions_returns E self dateNow' data extParams r Hr).
  unfold claimList, claimTail. rewrite Hlocked, Hlater. reflexivity.
Qed.

Lemma claim_locked_stays_witness :
  1600000 <= 1900000
  /\ existsb isClaimLocked
       (claimList sampleExternals (sampleClient None []) 1600000
          (sampleClaim 100) (sampleInteract plainOptions) (sampleReads None []))
     = true
  /\ outcome (prepareClaimInstructions sampleExternals (sampleClient None [])
                1900000 (sampleClaim 100) (sampleInteract plainOptions))
     = inr (claimList sampleExternals (sampleClient None []) 1600000
              (sampleClaim 100) (sampleInteract plainOptions)
              (sampleReads None [])).
Proof.
  assert (Hle : 1600000 <= 1900000) by discriminate.
  split; [exact Hle | split; [reflexivity |]].
  exact (claim_locked_stays sampleExternals (sampleClient None []) 1600000
           1900000 (sampleClaim 100) (sampleInteract plainOptions) _
           Hle eq_refl eq_refl).
Defined.

(** X3: a first claim before the unlock is the new-claim alone.  As long as
    [now - startTs < unlockPeriod] and no claim status exists, the list is the
    setup prefix followed by the new-claim and nothing else, whatever the
    locked amount. *)
Theorem first_claim_before_unlock E self dateNow data extParams r :
  claimReads E self data extParams r ->
  readClaimStatus r = None ->
  nowSeconds dateNow - MerkleDistributor.startTs (readDistributor r)
    < MerkleDistributor.unlockPeriod (readDistributor r) ->
  outcome (prepareClaimInstructions E self dateNow data extParams)
  = inr (map setup (claimSetup E extParams r)
         ++ [newClaim (claimArgs data) (claimAccounts E self r) (programId self)]).
Proof.
  intros Hr Hs Hlt.
  rewrite (prepareClaimInstructions_returns E self dateNow data extParams r Hr).
  unfold claimList, claimTail, unlockDue. rewrite Hs.
  replace (nowSeconds dateNow - MerkleDistributor.startTs (readDistributor r)
           >=? MerkleDistributor.unlockPeriod (readDistributor r)) with false.
  - rewrite andb_false_r. reflexivity.
  - symmetry. rewrite Z.geb_leb. apply Z.leb_gt. exact Hlt.
Qed.

Lemma first_claim_before_unlock_witness :
  claimReads sampleExternals (sampleClient None []) (sampleClaim 100)
    (sampleInteract plainOptions) (sampleReads None [])
  /\ readClaimStatus (sampleReads None []) = None
  /\ nowSeconds 1400000 - 1000 < 500
  /\ outcome (prepareClaimInstructions sampleExternals (sampleClient None [])
                1400000 (sampleClaim 100) (sampleInteract plainOptions))
     = inr [newClaim (claimArgs (sampleClaim 100))
              (claimAccounts sampleExternals (sampleClient None [])
                 (sampleReads None [])) 9%N].
Proof.
  assert (Hr : claimReads sampleExternals (sampleClient None []) (sampleClaim 100)
                 (sampleInteract plainOptions) (sampleReads None [])).
  { unfold claimReads; cbn. repeat split; reflexivity. }
  assert (Hlt : nowSeconds 1400000 - 1000 < 500) by reflexivity.
  split; [exact Hr | split; [reflexivity | split; [exact Hlt |]]].
  exact (first_claim_before_unlock sampleExternals (sampleClient None []) 1400000
           (sampleClaim 100) (sampleInteract plainOptions) (sampleReads None [])
           Hr eq_refl Hlt).
Defined.

(** X4: a claim-status read that fails is not an absent account: the
    composition stops with the reason of the failure, after its four reads,
    and returns no list. *)
Theorem failed_status_read_fails_claim E self dateNow data extParams
    k d distributor ma tp atas reason :
  publicKey (IInteractSolanaExt.invoker extParams) = Some k ->
  newPublicKey E (IClaimData.id data) = Some d ->
  distributorAccount (connection self) d = Got (Some distributor) ->
  mintAndProgram (connection self) (MerkleDistributor.mint distributor)
  = Got (ma, tp) ->
  ataBatch (connection self) [k] (MerkleDistributor.mint distributor)
    (IInteractSolanaExt.invoker extParams) tp = Got atas ->
  claimStatusAccount (connection self)
    (getClaimantStatusPda E (programId self) d k) = Failed reason ->
  prepareClaimInstructions E self dateNow data extParams
  = ([NetFetchDistributor d;
      NetGetMintAndProgram (MerkleDistributor.mint distributor);
      NetCheckOrCreateAta [k] (MerkleDistributor.mint distributor);
      NetFetchClaimStatus (getClaimantStatusPda E (programId self) d k)],
     inl (Upstream reason)).
Proof.
  intros Hk Hd Hf Hm Ha Hs.
  unfold prepareClaimInstructions. run_async.
  rewrite Hk, Hd; cbn. rewrite Hf; cbn. rewrite Hm; cbn.
  rewrite Ha; cbn. rewrite Hs; cbn. reflexivity.
Qed.

Lemma failed_status_read_fails_claim_witness :
  prepareClaimInstructions sampleExternals
    {| connection :=
         {| mintAndProgram := mintAndProgram (sampleConnection None None []);
            distributorAccount := fun _ => Got (Some sampleDistributor);
            claimStatusAccount := fun _ => Failed "timeout"%string;
            ataBatch := fun _ _ _ _ => Got [];
            wrappedAccount := fun _ _ => Got [] |};
       programId := 9%N |}
    1600000 (sampleClaim 100) (sampleInteract plainOptions)
  = ([NetFetchDistributor 40%N; NetGetMintAndProgram 20%N;
      NetCheckOrCreateAta [6%N] 20%N; NetFetchClaimStatus 3306%N],
     inl (Upstream "timeout"%string)).
Proof.
  exact (failed_status_read_fails_claim sampleExternals
           {| connection :=
                {| mintAndProgram := mintAndProgram (sampleConnection None None []);
                   distributorAccount := fun _ => Got (Some sampleDistributor);
                   claimStatusAccount := fun _ => Failed "timeout"%string;
                   ataBatch := fun _ _ _ _ => Got [];
                   wrappedAccount := fun _ _ => Got [] |};
              programId := 9%N |}
           1600000 (sampleClaim 100) (sampleInteract plainOptions)
           6%N 40%N sampleDistributor {| decimals := 9 |} 5%N [] "timeout"%string
           eq_refl eq_refl eq_refl eq_refl eq_refl eq_refl).
Defined.

(** X5: a claim list holds nothing but setup instructions and claim
    instructions; the new-claim carries the amounts and the proof of the
    request unchanged, and the new-claim and the claim-locked instruction are
    built on one and the same accounts (claimant: the invoker; source: the
    vault stored in the distributor) for the program of the client. *)
Theorem claim_list_members E self dateNow data extParams ixs :
  outcome (prepareClaimInstructions E self dateNow data extParams) = inr ixs ->
  exists r,
    claimReads E self data extParams r
    /\ Forall (claimListMember E self data r) ixs
    /\ ClaimAccounts.claimant (claimAccounts E self r) = readInvokerKey r
    /\ ClaimAccounts.from (claimAccounts E self r)
       = MerkleDistributor.tokenVault (readDistributor r)
    /\ NewClaimArgs.amountLocked (claimArgs data) = IClaimData.amountLocked data
    /\ NewClaimArgs.amountUnlocked (claimArgs data) = IClaimData.amountUnlocked data
    /\ NewClaimArgs.proof (claimArgs data) = IClaimData.proof data.
Proof.
  intros Hrun.
  apply prepareClaimInstructions_inv in Hrun as (r & Hr & ->).
  exists r. split; [exact Hr |].
  split; [| repeat split; reflexivity].
  unfold claimList. apply Forall_app. split.
  - apply Forall_forall. intros ix Hin.
    apply in_map_iff in Hin as (i & <- & _). exact I.
  - unfold claimTail. apply Forall_app. split.
    + destruct (readClaimStatus r); [constructor |].
      constructor; [| constructor]. cbn. repeat split; reflexivity.
    + destruct (unlockDue _ _ _ _); [| constructor].
      constructor; [| constructor]. cbn. split; reflexivity.
Qed.

Lemma claim_list_members_witness :
  outcome (prepareClaimInstructions sampleExternals
             (sampleClient None [OpaqueIx 5]) 1600000 (sampleClaim 100)
             (sampleInteract pricedOptions))
  = inr (claimList sampleExternals (sampleClient None [OpaqueIx 5]) 1600000
           (sampleClaim 100) (sampleInteract pricedOptions)
           (sampleReads None [OpaqueIx 5]))
  /\ exists r,
       claimReads sampleExternals (sampleClient None [OpaqueIx 5])
         (sampleClaim 100) (sampleInteract pricedOptions) r
       /\ Forall (claimListMember sampleExternals (sampleClient None [OpaqueIx 5])
                    (sampleClaim 100) r)
            (claimList sampleExternals (sampleClient None [OpaqueIx 5]) 1600000
               (sampleClaim 100) (sampleInteract pricedOptions)
               (sampleReads None [OpaqueIx 5])).
Proof.
  split; [reflexivity |].
  destruct (claim_list_members sampleExternals (sampleClient None [OpaqueIx 5])
              1600000 (sampleClaim 100) (sampleInteract pricedOptions) _ eq_refl)
    as (r & Hr & Hall & _).
  exists r. split; [exact Hr | exact Hall].
Defined.

(** ** The clawback composer *)

(** A returned clawback list comes from a run in which every read went
    through, and is the setup prefix followed by the clawback. *)
Lemma prepareClawbackInstructions_inv E self data extParams ixs :
  outcome (prepareClawbackInstructions E self data extParams) = inr ixs ->
  exists k d distributor ma tp atas,
    publicKey (IInteractSolanaExt.invoker extParams) = Some k
    /\ newPublicKey E (IClawbackData.id data) = Some d
    /\ distributorAccount (connection self) d = Got (Some distributor)
    /\ mintAndProgram (connection self) (MerkleDistributor.mint distributor)
       = Got (ma, tp)
    /\ ataBatch (connection self) [k] (MerkleDistributor.mint distributor)
         (IInteractSolanaExt.invoker extParams) tp = Got atas
    /\ prepareClawbackInstructions E self data extParams
       = ([NetFetchDistributor d;
           NetGetMintAndProgram (MerkleDistributor.mint distributor);
           NetCheckOrCreateAta [k] (MerkleDistributor.mint distributor)],
          inr (map setup
                 (prepareBaseInstructions E (IInteractSolanaExt.options extParams)
                  ++ atas)
               ++ [clawback (clawbackAccounts E d distributor k tp)
                     (programId self)])).
Proof.
  unfold prepareClawbackInstructions, clawbackAccounts.
  destruct (publicKey (IInteractSolanaExt.invoker extParams)) as [k |] eqn:Hk;
    [| discriminate].
  run_async.
  destruct (newPublicKey E (IClawbackData.id data)) as [d |] eqn:Hd; cbn;
    [| discriminate].
  destruct (distributorAccount (connection self) d) as [s | [dist |]] eqn:Hf; cbn;
    try discriminate.
  destruct (mintAndProgram (connection self) (MerkleDistributor.mint dist))
    as [s | [ma tp]] eqn:Hm; cbn; try discriminate.
  destruct (ataBatch _ _ _ _ _) as [s | atas] eqn:Ha; cbn; try discriminate.
  intros _. exists k, d, dist, ma, tp, atas.
  rewrite map_app. repeat split; try reflexivity; assumption.
Qed.

(** X6: a clawback list is the setup prefix followed by a single clawback
    instruction, which moves the funds from the vault stored in the
    distributor to the clawback receiver stored in the distributor, with the
    invoker as admin.  The composition reads the distributor, its mint and
    the invoker's token account, and never a claim status. *)
Theorem clawback_list_shape E self data extParams ixs :
  outcome (prepareClawbackInstructions E self data extParams) = inr ixs ->
  exists k d distributor tp pre accounts,
    publicKey (IInteractSolanaExt.invoker extParams) = Some k
    /\ newPublicKey E (IClawbackData.id data) = Some d
    /\ distributorAccount (connection self) d = Got (Some distributor)
    /\ ixs = map setup pre ++ [clawback accounts (programId self)]
    /\ ClawbackAccounts.distributor accounts = d
    /\ ClawbackAccounts.from accounts = MerkleDistributor.tokenVault distributor
    /\ ClawbackAccounts.to accounts = MerkleDistributor.clawbackReceiver distributor
    /\ ClawbackAccounts.admin accounts = k
    /\ ClawbackAccounts.mint accounts = MerkleDistributor.mint distributor
    /\ ClawbackAccounts.tokenProgram accounts = tp
    /\ trace (prepareClawbackInstructions E self data extParams)
       = [NetFetchDistributor d;
          NetGetMintAndProgram (MerkleDistributor.mint distributor);
          NetCheckOrCreateAta [k] (MerkleDistributor.mint distributor)].
Proof.
  intros Hrun.
  destruct (prepareClawbackInstructions_inv E self data extParams ixs Hrun)
    as (k & d & dist & ma & tp & atas & Hk & Hd & Hf & Hm & Ha & Heq).
  exists k, d, dist, tp,
    (prepareBaseInstructions E (IInteractSolanaExt.options extParams) ++ atas),
    (clawbackAccounts E d dist k tp).
  rewrite Heq in Hrun |- *. cbn in Hrun. injection Hrun as <-.
  repeat split; try reflexivity; assumption.
Qed.

Lemma clawback_list_shape_witness :
  prepareClawbackInstructions sampleExternals (sampleClient None [OpaqueIx 5])
    sampleClawback (sampleInteract plainOptions)
  = ([NetFetchDistributor 40%N; NetGetMintAndProgram 20%N;
      NetCheckOrCreateAta [6%N] 20%N],
     inr [setup (OpaqueIx 5);
          clawback (clawbackAccounts sampleExternals 40%N sampleDistributor 6%N 5%N)
            9%N])
  /\ exists k d distributor tp pre accounts,
       publicKey (IInteractSolanaExt.invoker (sampleInteract plainOptions)) = Some k
       /\ newPublicKey sampleExternals (IClawbackData.id sampleClawback) = Some d
       /\ distributorAccount (connection (sampleClient None [OpaqueIx 5])) d
          = Got (Some distributor)
       /\ [setup (OpaqueIx 5);
           clawback (clawbackAccounts sampleExternals 40%N sampleDistributor 6%N 5%N)
             9%N]
          = map setup pre ++ [clawback accounts 9%N]
       /\ ClawbackAccounts.distributor accounts = d
       /\ ClawbackAccounts.from accounts = MerkleDistributor.tokenVault distributor
       /\ ClawbackAccounts.to accounts
          = MerkleDistributor.clawbackReceiver distributor
       /\ ClawbackAccounts.admin accounts = k
       /\ ClawbackAccounts.mint accounts = MerkleDistributor.mint distributor
       /\ ClawbackAccounts.tokenProgram accounts = tp
       /\ trace (prepareClawbackInstructions sampleExternals
                   (sampleClient None [OpaqueIx 5]) sampleClawback
                   (sampleInteract plainOptions))
          = [NetFetchDistributor d;
             NetGetMintAndProgram (MerkleDistributor.mint distributor);
             NetCheckOrCreateAta [k] (MerkleDistributor.mint distributor)].
Proof.
  split; [reflexivity |].
  exact (clawback_list_shape sampleExternals (sampleClient None [OpaqueIx 5])
           sampleClawback (sampleInteract plainOptions) _ eq_refl).
Defined.

(** X7: whoever can compose a claim for a distributor can compose a clawback
    for it.  When the claim composition returns, the clawback composition for
    the same id and invoker returns too, with the same setup prefix, and its
    reads are those of the claim without the claim-status read. *)
Theorem claim_reads_cover_clawback E self dateNow data cdata extParams ixs :
  IClawbackData.id cdata = IClaimData.id data ->
  outcome (prepareClaimInstructions E self dateNow data extParams) = inr ixs ->
  exists ixs' status,
    outcome (prepareClawbackInstructions E self cdata extParams) = inr ixs'
    /\ filter isSetup ixs' = filter isSetup ixs
    /\ trace (prepareClaimInstructions E self dateNow data extParams)
       = trace (prepareClawbackInstructions E self cdata extParams)
         ++ [NetFetchClaimStatus status].
Proof.
  intros Hid Hrun.
  apply prepareClaimInstructions_inv in Hrun as (r & Hr & ->).
  rewrite (prepareClaimInstructions_trace E self dateNow data extParams r Hr).
  destruct Hr as (Hk & Hd & Hf & Hm & Ha & Hs).
  unfold prepareClawbackInstructions. run_async.
  rewrite Hk, Hid, Hd; cbn. rewrite Hf; cbn. rewrite Hm; cbn. rewrite Ha; cbn.
  eexists. exists (claimStatusAddress E self r).
  split; [reflexivity |]. split; [| reflexivity].
  unfold claimList, claimSetup, claimTail.
  assert (Hsetup : forall l, filter isSetup (map setup l) = map setup l).
  { induction l as [| i l IH]; cbn; [reflexivity | rewrite IH; reflexivity]. }
  rewrite map_app, !filter_app, !Hsetup.
  destruct (readClaimStatus r); cbn.
  - rewrite app_nil_r. reflexivity.
  - destruct (_ && _); cbn; rewrite app_nil_r; reflexivity.
Qed.

Lemma claim_reads_cover_clawback_witness :
  IClawbackData.id sampleClawback = IClaimData.id (sampleClaim 100)
  /\ outcome (prepareClaimInstructions sampleExternals
                (sampleClient None [OpaqueIx 5]) 1600000 (sampleClaim 100)
                (sampleInteract pricedOptions))
     = inr (claimList sampleExternals (sampleClient None [OpaqueIx 5]) 1600000
              (sampleClaim 100) (sampleInteract pricedOptions)
              (sampleReads None [OpaqueIx 5]))
  /\ exists ixs' status,
       outcome (prepareClawbackInstructions sampleExternals
                  (sampleClient None [OpaqueIx 5]) sampleClawback
                  (sampleInteract pricedOptions)) = inr ixs'
       /\ filter isSetup ixs'
          = filter isSetup
              (claimList sampleExternals (sampleClient None [OpaqueIx 5]) 1600000
                 (sampleClaim 100) (sampleInteract pricedOptions)
                 (sampleReads None [OpaqueIx 5]))
       /\ trace (prepareClaimInstructions sampleExternals
                   (sampleClient None [OpaqueIx 5]) 1600000 (sampleClaim 100)
                   (sampleInteract pricedOptions))
          = trace (prepareClawbackInstructions sampleExternals
                     (sampleClient None [OpaqueIx 5]) sampleClawback
                     (sampleInteract pricedOptions))
            ++ [NetFetchClaimStatus status].
Proof.
  split; [reflexivity | split; [reflexivity |]].
  exact (claim_reads_cover_clawback sampleExternals
           (sampleClient None [OpaqueIx 5]) 1600000 (sampleClaim 100)
           sampleClawback (sampleInteract pricedOptions) _ eq_refl eq_refl).
Defined.

(** ** Further properties of the creation composer *)

(** A creation that returns has found its key and its mint, has passed the
    vesting test, and returns the setup instructions followed by the two
    closing instructions. *)
Lemma prepareCreateInstructions_inv E self dateNow data extParams res :
  outcome (prepareCreateInstructions E self dateNow data extParams) = inr res ->
  exists k mint ma tp wrapped,
    publicKey (ICreateSolanaExt.invoker extParams) = Some k
    /\ createMint E data extParams = Some mint
    /\ mintAndProgram (connection self) mint = Got (ma, tp)
    /\ (if ICreateSolanaExt.isNative extParams
        then wrappedAccount (connection self) k
               (ICreateDistributorData.maxTotalClaim data) = Got wrapped
        else wrapped = [])
    /\ vestingRejected dateNow data = false
    /\ res = (createdDistributor E self data mint,
              map setup (prepareBaseInstructions E
                           (ICreateSolanaExt.options extParams) ++ wrapped)
              ++ createTail E self data mint k ma tp).
Proof.
  unfold prepareCreateInstructions, createMint, vestingRejected, createTail,
    createAccounts, createdDistributor, createArgs.
  destruct (publicKey (ICreateSolanaExt.invoker extParams)) as [k |] eqn:Hk;
    [| discriminate].
  run_async.
  destruct (ICreateSolanaExt.isNative extParams) eqn:Hn.
  - cbn. destruct (mintAndProgram (connection self) (NATIVE_MINT E))
      as [s | [ma tp]] eqn:Hm; cbn; [discriminate |].
    split_numbers; try discriminate.
    destruct (wrappedAccount _ _ _) as [s | w] eqn:Hw; cbn; [discriminate |].
    destruct (_ && _) eqn:Hv; cbn; [discriminate |].
    intros [= <-]. exists k, (NATIVE_MINT E), ma, tp, w.
    rewrite map_app, <- !app_assoc. cbn. auto 10.
  - destruct (newPublicKey E (ICreateDistributorData.mint data)) as [m |] eqn:Hp;
      cbn; [| discriminate].
    destruct (mintAndProgram (connection self) m) as [s | [ma tp]] eqn:Hm; cbn;
      [discriminate |].
    split_numbers; try discriminate.
    destruct (_ && _) eqn:Hv; cbn; [discriminate |].
    intros [= <-]. exists k, m, ma, tp, [].
    rewrite app_nil_r, <- !app_assoc. cbn. auto 10.
Qed.

(** X8: the list of a creation ends with the create-distributor instruction
    followed by the transfer, and the two agree: the transfer moves
    [maxTotalClaim] tokens of the mint from the invoker's token account, which
    the distributor records as clawback receiver, to the token account of the
    distributor address that is returned, which the distributor records as
    its vault; the invoker is admin and owner. *)
Theorem create_list_shape E self dateNow data extParams distributorPublicKey ixs :
  outcome (prepareCreateInstructions E self dateNow data extParams)
  = inr (distributorPublicKey, ixs) ->
  exists k mint ma tp pre accounts,
    publicKey (ICreateSolanaExt.invoker extParams) = Some k
    /\ createMint E data extParams = Some mint
    /\ mintAndProgram (connection self) mint = Got (ma, tp)
    /\ ixs = map setup pre
             ++ [newDistributor (createArgs data) accounts (programId self);
                 createTransferCheckedInstruction
                   (NewDistributorAccounts.clawbackReceiver accounts) mint
                   (NewDistributorAccounts.tokenVault accounts) k
                   (NewDistributorArgs.maxTotalClaim (createArgs data))
                   (decimals ma) tp]
    /\ distributorPublicKey
       = getDistributorPda E (programId self) mint
           (ICreateDistributorData.version data)
    /\ NewDistributorAccounts.distributor accounts = distributorPublicKey
    /\ NewDistributorAccounts.tokenVault accounts
       = ata E mint distributorPublicKey tp
    /\ NewDistributorAccounts.clawbackReceiver accounts = ata E mint k tp
    /\ NewDistributorAccounts.admin accounts = k
    /\ NewDistributorAccounts.mint accounts = mint
    /\ (ICreateSolanaExt.isNative extParams = false ->
        pre = prepareBaseInstructions E (ICreateSolanaExt.options extParams)).
Proof.
  intros Hrun.
  apply prepareCreateInstructions_inv in Hrun
    as (k & mint & ma & tp & w & Hk & Hmint & Hm & Hw & _ & Hres).
  injection Hres as -> ->.
  exists k, mint, ma, tp,
    (prepareBaseInstructions E (ICreateSolanaExt.options extParams) ++ w),
    (createAccounts E self data mint k tp).
  repeat split; try reflexivity; try assumption.
  intros Hn. rewrite Hn in Hw. subst w. apply app_nil_r.
Qed.

Lemma create_list_shape_witness :
  outcome (prepareCreateInstructions sampleExternals (sampleClient None [])
             1700000000000 (sampleCreate 1000 2000 500)
             (sampleCreateExt sampleInvoker false))
  = inr (2103%N,
         createTail sampleExternals (sampleClient None [])
           (sampleCreate 1000 2000 500) 20%N 6%N {| decimals := 9 |} 5%N)
  /\ exists k mint ma tp pre accounts,
       publicKey (ICreateSolanaExt.invoker (sampleCreateExt sampleInvoker false))
       = Some k
       /\ createMint sampleExternals (sampleCreate 1000 2000 500)
            (sampleCreateExt sampleInvoker false) = Some mint
       /\ mintAndProgram (connection (sampleClient None [])) mint = Got (ma, tp)
       /\ createTail sampleExternals (sampleClient None [])
            (sampleCreate 1000 2000 500) 20%N 6%N {| decimals := 9 |} 5%N
          = map setup pre
            ++ [newDistributor (createArgs (sampleCreate 1000 2000 500)) accounts
                  9%N;
                createTransferCheckedInstruction
                  (NewDistributorAccounts.clawbackReceiver accounts) mint
                  (NewDistributorAccounts.tokenVault accounts) k
                  (NewDistributorArgs.maxTotalClaim
                     (createArgs (sampleCreate 1000 2000 500)))
                  (decimals ma) tp]
       /\ 2103%N = getDistributorPda sampleExternals 9%N mint 3
       /\ NewDistributorAccounts.distributor accounts = 2103%N
       /\ NewDistributorAccounts.tokenVault accounts
          = ata sampleExternals mint 2103%N tp
       /\ NewDistributorAccounts.clawbackReceiver accounts
          = ata sampleExternals mint k tp
       /\ NewDistributorAccounts.admin accounts = k
       /\ NewDistributorAccounts.mint accounts = mint
       /\ (ICreateSolanaExt.isNative (sampleCreateExt sampleInvoker false) = false ->
           pre = prepareBaseInstructions sampleExternals plainOptions).
Proof.
  split; [reflexivity |].
  exact (create_list_shape sampleExternals (sampleClient None []) 1700000000000
           (sampleCreate 1000 2000 500) (sampleCreateExt sampleInvoker false)
           2103%N _ eq_refl).
Defined.

(** The unlock-period error is thrown only when the vesting test rejects. *)
Lemma prepareCreateInstructions_throws_rejected E self dateNow data extParams :
  outcome (prepareCreateInstructions E self dateNow data extParams)
  = inl (Thrown unlockPeriodTooLong) ->
  vestingRejected dateNow data = true.
Proof.
  unfold prepareCreateInstructions, vestingRejected.
  destruct (publicKey (ICreateSolanaExt.invoker extParams)) as [k |];
    [| discriminate].
  run_async.
  destruct (ICreateSolanaExt.isNative extParams).
  - cbn. destruct (mintAndProgram (connection self) (NATIVE_MINT E))
      as [s | [ma tp]]; cbn; [discriminate |].
    split_numbers; try discriminate.
    destruct (wrappedAccount _ _ _) as [s | w]; cbn; [discriminate |].
    destruct (_ && _); cbn; [reflexivity | discriminate].
  - destruct (newPublicKey E (ICreateDistributorData.mint data)) as [m |]; cbn;
      [| discriminate].
    destruct (mintAndProgram (connection self) m) as [s | [ma tp]]; cbn;
      [discriminate |].
    split_numbers; try discriminate.
    destruct (_ && _); cbn; [reflexivity | discriminate].
Qed.

(** X9: windows the vesting test lets through whatever the unlock period.
    A creation never throws the unlock-period error when both timestamps are
    zero, or when both are set and the end is not after the start; nor, for
    any timestamps, when the unlock period is at most one second. *)
Theorem degenerate_windows_not_rejected E self dateNow data extParams :
  (ICreateDistributorData.startVestingTs data = 0
   /\ ICreateDistributorData.endVestingTs data = 0)
  \/ (ICreateDistributorData.startVestingTs data <> 0
      /\ ICreateDistributorData.endVestingTs data <> 0
      /\ ICreateDistributorData.endVestingTs data
         <= ICreateDistributorData.startVestingTs data)
  \/ ICreateDistributorData.unlockPeriod data <= 1 ->
  vestingRejected dateNow data = false
  /\ outcome (prepareCreateInstructions E self dateNow data extParams)
     <> inl (Thrown unlockPeriodTooLong).
Proof.
  intros Hcase.
  assert (Hv : vestingRejected dateNow data = false).
  { unfold vestingRejected.
    apply andb_false_iff.
    destruct Hcase as [[Hs He] | [(Hs & He & Hle) | Hu]].
    - rewrite Hs, He. cbn. left. rewrite Z.gtb_ltb. apply Z.ltb_irrefl.
    - apply Z.eqb_neq in Hs, He. rewrite Hs, He.
      left. rewrite Z.gtb_ltb. apply Z.ltb_ge. exact Hle.
    - destruct (Z.gtb_spec
                  (if ICreateDistributorData.endVestingTs data =? 0
                   then nowSeconds dateNow
                   else ICreateDistributorData.endVestingTs data)
                  (if ICreateDistributorData.startVestingTs data =? 0
                   then nowSeconds dateNow
                   else ICreateDistributorData.startVestingTs data))
        as [Hgt | Hle]; [right | left; reflexivity].
      apply Z.ltb_ge. lia. }
  split; [exact Hv |].
  intros Hthrown.
  apply prepareCreateInstructions_throws_rejected in Hthrown.
  rewrite Hv in Hthrown. discriminate Hthrown.
Qed.

Lemma degenerate_windows_not_rejected_witness :
  ((ICreateDistributorData.startVestingTs (sampleCreate 2000 1000 5000) = 0
    /\ ICreateDistributorData.endVestingTs (sampleCreate 2000 1000 5000) = 0)
   \/ (ICreateDistributorData.startVestingTs (sampleCreate 2000 1000 5000) <> 0
       /\ ICreateDistributorData.endVestingTs (sampleCreate 2000 1000 5000) <> 0
       /\ ICreateDistributorData.endVestingTs (sampleCreate 2000 1000 5000)
          <= ICreateDistributorData.startVestingTs (sampleCreate 2000 1000 5000))
   \/ ICreateDistributorData.unlockPeriod (sampleCreate 2000 1000 5000) <= 1)
  /\ vestingRejected 1700000000000 (sampleCreate 2000 1000 5000) = false
  /\ outcome (prepareCreateInstructions sampleExternals (sampleClient None [])
                1700000000000 (sampleCreate 2000 1000 5000)
                (sampleCreateExt sampleInvoker false))
     <> inl (Thrown unlockPeriodTooLong).
Proof.
  assert (Hcase :
    (ICreateDistributorData.startVestingTs (sampleCreate 2000 1000 5000) = 0
     /\ ICreateDistributorData.endVestingTs (sampleCreate 2000 1000 5000) = 0)
    \/ (ICreateDistributorData.startVestingTs (sampleCreate 2000 1000 5000) <> 0
        /\ ICreateDistributorData.endVestingTs (sampleCreate 2000 1000 5000) <> 0
        /\ ICreateDistributorData.endVestingTs (sampleCreate 2000 1000 5000)
           <= ICreateDistributorData.startVestingTs (sampleCreate 2000 1000 5000))
    \/ ICreateDistributorData.unlockPeriod (sampleCreate 2000 1000 5000) <= 1).
  { right. left. cbn. repeat split; discriminate. }
  split; [exact Hcase |].
  exact (degenerate_windows_not_rejected sampleExternals (sampleClient None [])
           1700000000000 (sampleCreate 2000 1000 5000)
           (sampleCreateExt sampleInvoker false) Hcase).
Defined.

(** X10: the clock matters to a creation only through a zero timestamp.  When
    [startVestingTs] and [endVestingTs] are both set, two creations at
    different times make the same reads and end alike. *)
Theorem create_ignores_clock E self dateNow dateNow' data extParams :
  ICreateDistributorData.startVestingTs data <> 0 ->
  ICreateDistributorData.endVestingTs data <> 0 ->
  prepareCreateInstructions E self dateNow data extParams
  = prepareCreateInstructions E self dateNow' data extParams.
Proof.
  intros Hs He. apply Z.eqb_neq in Hs, He.
  unfold prepareCreateInstructions.
  destruct (publicKey (ICreateSolanaExt.invoker extParams)) as [k |];
    [| reflexivity].
  run_async.
  destruct (ICreateSolanaExt.isNative extParams).
  - cbn. destruct (mintAndProgram (connection self) (NATIVE_MINT E))
      as [s | [ma tp]]; cbn; [reflexivity |].
    split_numbers; try reflexivity.
    destruct (wrappedAccount _ _ _) as [s | w]; cbn; [reflexivity |].
    rewrite Hs, He. reflexivity.
  - destruct (newPublicKey E (ICreateDistributorData.mint data)) as [m |]; cbn;
      [| reflexivity].
    destruct (mintAndProgram (connection self) m) as [s | [ma tp]]; cbn;
      [reflexivity |].
    split_numbers; try reflexivity.
    rewrite Hs, He. reflexivity.
Qed.

Lemma create_ignores_clock_witness :
  ICreateDistributorData.startVestingTs (sampleCreate 1000 2000 500) <> 0
  /\ ICreateDistributorData.endVestingTs (sampleCreate 1000 2000 500) <> 0
  /\ prepareCreateInstructions sampleExternals (sampleClient None []) 0
       (sampleCreate 1000 2000 500) (sampleCreateExt sampleInvoker true)
     = prepareCreateInstructions sampleExternals (sampleClient None [])
         1700000000000 (sampleCreate 1000 2000 500)
         (sampleCreateExt sampleInvoker true).
Proof.
  assert (Hs : ICreateDistributorData.startVestingTs (sampleCreate 1000 2000 500)
               <> 0) by discriminate.
  assert (He : ICreateDistributorData.endVestingTs (sampleCreate 1000 2000 500)
               <> 0) by discriminate.
  split; [exact Hs | split; [exact He |]].
  exact (create_ignores_clock sampleExternals (sampleClient None []) 0
           1700000000000 (sampleCreate 1000 2000 500)
           (sampleCreateExt sampleInvoker true) Hs He).
Defined.

(** With [endVestingTs = 0] the end of the window is the time of the call: the
    same request is let through at second 900 and rejected at second 1200. *)
Example zero_end_depends_on_clock :
  vestingRejected 900000 (sampleCreate 1000 0 500) = false
  /\ vestingRejected 1200000 (sampleCreate 1000 0 500) = true.
Proof. split; reflexivity. Qed.

(** X11: a creation funded with the native asset never looks at [data.mint]:
    any other string there, a key or not, gives the same run, on the native
    mint. *)
Theorem native_create_ignores_mint E self dateNow data extParams s :
  ICreateSolanaExt.isNative extParams = true ->
  prepareCreateInstructions E self dateNow (withMint s data) extParams
  = prepareCreateInstructions E self dateNow data extParams
  /\ createMint E (withMint s data) extParams = Some (NATIVE_MINT E).
Proof.
  intros Hn. unfold prepareCreateInstructions, createMint.
  rewrite Hn. split; reflexivity.
Qed.

Lemma native_create_ignores_mint_witness :
  ICreateSolanaExt.isNative (sampleCreateExt sampleInvoker true) = true
  /\ newPublicKey sampleExternals "not a key" = None
  /\ prepareCreateInstructions sampleExternals (sampleClient None [])
       1700000000000 (withMint "not a key" (sampleCreate 1000 2000 500))
       (sampleCreateExt sampleInvoker true)
     = prepareCreateInstructions sampleExternals (sampleClient None [])
         1700000000000 (sampleCreate 1000 2000 500)
         (sampleCreateExt sampleInvoker true).
Proof.
  split; [reflexivity | split; [reflexivity |]].
  exact (proj1 (native_create_ignores_mint sampleExternals (sampleClient None [])
                  1700000000000 (sampleCreate 1000 2000 500)
                  (sampleCreateExt sampleInvoker true) "not a key" eq_refl)).
Defined.

(** X12: a string that is no public key stops a composer before any network
    read: [data.mint] for a creation that is not native, [data.id] for a claim
    and for a clawback.  The error is that of the key constructor, not an
    InvalidInput of the client. *)
Theorem unparsable_key_stops_before_reads E self dateNow createData createExt
    claimData clawbackData extParams k k' :
  publicKey (ICreateSolanaExt.invoker createExt) = Some k ->
  ICreateSolanaExt.isNative createExt = false ->
  newPublicKey E (ICreateDistributorData.mint createData) = None ->
  publicKey (IInteractSolanaExt.invoker extParams) = Some k' ->
  newPublicKey E (IClaimData.id claimData) = None ->
  newPublicKey E (IClawbackData.id clawbackData) = None ->
  prepareCreateInstructions E self dateNow createData createExt
  = ([], inl (Upstream invalidPublicKey))
  /\ prepareClaimInstructions E self dateNow claimData extParams
     = ([], inl (Upstream invalidPublicKey))
  /\ prepareClawbackInstructions E self clawbackData extParams
     = ([], inl (Upstream invalidPublicKey))
  /\ isInvalidInput (Upstream invalidPublicKey) = false.
Proof.
  intros Hk Hn Hmint Hk' Hid Hid'.
  unfold prepareCreateInstructions, prepareClaimInstructions,
    prepareClawbackInstructions.
  run_async. rewrite Hk, Hn, Hmint, Hk', Hid, Hid'. cbn.
  repeat split; reflexivity.
Qed.

Lemma unparsable_key_stops_before_reads_witness :
  prepareCreateInstructions sampleExternals (sampleClient None [])
    1700000000000 (withMint "not a key" (sampleCreate 1000 2000 500))
    (sampleCreateExt sampleInvoker false)
  = ([], inl (Upstream invalidPublicKey))
  /\ prepareClaimInstructions sampleExternals (sampleClient None []) 1600000
       {| IClaimData.id := "not a key"; IClaimData.proof := [];
          IClaimData.amountUnlocked := 1; IClaimData.amountLocked := 1 |}
       (sampleInteract plainOptions)
     = ([], inl (Upstream invalidPublicKey))
  /\ prepareClawbackInstructions sampleExternals (sampleClient None [])
       {| IClawbackData.id := "not a key" |} (sampleInteract plainOptions)
     = ([], inl (Upstream invalidPublicKey))
  /\ isInvalidInput (Upstream invalidPublicKey) = false.
Proof.
  exact (unparsable_key_stops_before_reads sampleExternals (sampleClient None [])
           1700000000000 (withMint "not a key" (sampleCreate 1000 2000 500))
           (sampleCreateExt sampleInvoker false)
           {| IClaimData.id := "not a key"; IClaimData.proof := [];
              IClaimData.amountUnlocked := 1; IClaimData.amountLocked := 1 |}
           {| IClawbackData.id := "not a key" |} (sampleInteract plainOptions)
           6%N 6%N eq_refl eq_refl eq_refl eq_refl eq_refl eq_refl).
Defined.

(** ** The public methods *)

Lemma existsb_pipeline_compose (t : list NetCall) :
  existsb isPipelineCall (map Compose t) = false.
Proof. induction t as [| c t IH]; cbn; [reflexivity | exact IH]. Qed.

Lemma create_stops_with_composer E toBase58 self dateNow data
    extParams e :
  outcome (prepareCreateInstructions E (Client.composer self) dateNow data
             extParams) = inl e ->
  Client.create E toBase58 self dateNow data extParams
  = (map Compose
       (trace (prepareCreateInstructions E (Client.composer self) dateNow data
                 extParams)),
     inl e).
Proof.
  unfold Client.create. run_task. unfold outcome, trace.
  destruct (prepareCreateInstructions E (Client.composer self) dateNow data
              extParams) as [t [e' | a]]; cbn; intros H;
    [injection H as ->; reflexivity | discriminate H].
Qed.

(** X13: a composition that fails fails the public method with the same
    error, and the method then neither prepares nor signs nor sends a
    transaction: its only calls are the reads the composer made. *)
Theorem failed_composition_submits_nothing E toBase58 self dateNow
    createData createExt claimData clawbackData extParams :
  (forall e,
      outcome (prepareCreateInstructions E (Client.composer self) dateNow
                 createData createExt) = inl e ->
      Client.create E toBase58 self dateNow createData createExt
      = (map Compose
           (trace (prepareCreateInstructions E (Client.composer self) dateNow
                     createData createExt)),
         inl e))
  /\ (forall e,
         outcome (prepareClaimInstructions E (Client.composer self) dateNow
                    claimData extParams) = inl e ->
         Client.claim E self dateNow claimData extParams
         = (map Compose
              (trace (prepareClaimInstructions E (Client.composer self) dateNow
                        claimData extParams)),
            inl e))
  /\ (forall e,
         outcome (prepareClawbackInstructions E (Client.composer self)
                    clawbackData extParams) = inl e ->
         Client.clawback E self clawbackData extParams
         = (map Compose
              (trace (prepareClawbackInstructions E (Client.composer self)
                        clawbackData extParams)),
            inl e)).
Proof.
  split; [| split]; intros e;
    unfold Client.create, Client.claim, Client.clawback; run_task;
    unfold outcome, trace;
    match goal with |- snd ?m = _ -> _ => destruct m as [t [e' | a]] end; cbn;
    intros H; try discriminate H; injection H as ->; reflexivity.
Qed.

Lemma failed_composition_submits_nothing_witness :
  Client.create sampleExternals sampleToBase58
    (sampleFullClient samplePipeline None []) 1700000000000
    (sampleCreate 1000 1400 500) (sampleCreateExt sampleInvoker false)
  = ([Compose (NetGetMintAndProgram 20%N)], inl (Thrown unlockPeriodTooLong))
  /\ Client.claim sampleExternals (sampleFullClient samplePipeline None [])
       1600000 (sampleClaim 100)
       {| IInteractSolanaExt.invoker := disconnectedInvoker;
          IInteractSolanaExt.options := plainOptions |}
     = ([], inl (Thrown invokerKeyMissing)).
Proof.
  pose proof (failed_composition_submits_nothing sampleExternals sampleToBase58
                (sampleFullClient samplePipeline None []) 1700000000000
                (sampleCreate 1000 1400 500) (sampleCreateExt sampleInvoker false)
                (sampleClaim 100) sampleClawback
                {| IInteractSolanaExt.invoker := disconnectedInvoker;
                   IInteractSolanaExt.options := plainOptions |})
    as (Hcreate & _ & _).
  pose proof (failed_composition_submits_nothing sampleExternals sampleToBase58
                (sampleFullClient samplePipeline None []) 1600000
                (sampleCreate 1000 1400 500) (sampleCreateExt sampleInvoker false)
                (sampleClaim 100) sampleClawback
                {| IInteractSolanaExt.invoker := disconnectedInvoker;
                   IInteractSolanaExt.options := plainOptions |})
    as (_ & Hclaim & _).
  split.
  - exact (Hcreate (Thrown unlockPeriodTooLong) eq_refl).
  - exact (Hclaim (Thrown invokerKeyMissing) eq_refl).
Defined.

(** X14: what [claim] and [clawback] report is what they composed and sent.
    When [claim] returns, its [ixs] are the list of the composer, the
    transaction was prepared once from that list with the invoker's key as
    payer, it was signed and sent once, under the client's commitment and
    throttler, after all the reads of the composer, and [txId] is the
    signature the submission answered. *)
Theorem claim_reports_what_it_sent E self dateNow data extParams res :
  snd (Client.claim E self dateNow data extParams) = inr res ->
  exists prepared,
    outcome (prepareClaimInstructions E (Client.composer self) dateNow data
               extParams) = inr (ITransactionResult.ixs res)
    /\ preparedTransaction (pipeline (Client.connection self))
         (ITransactionResult.ixs res)
         (publicKey (IInteractSolanaExt.invoker extParams)) = Got prepared
    /\ executedTransaction (pipeline (Client.connection self))
         (IInteractSolanaExt.invoker extParams)
         (tx prepared) (hash prepared) (context prepared)
         (Client.getCommitment self) (Client.sendThrottler self)
       = Got (ITransactionResult.txId res)
    /\ fst (Client.claim E self dateNow data extParams)
       = map Compose
           (trace (prepareClaimInstructions E (Client.composer self) dateNow
                     data extParams))
         ++ [NetPrepareTransaction (ITransactionResult.ixs res)
               (publicKey (IInteractSolanaExt.invoker extParams));
             NetSignAndExecute (IInteractSolanaExt.invoker extParams)
               (tx prepared) (hash prepared) (context prepared)
               (Client.getCommitment self) (Client.sendThrottler self)].
Proof.
  unfold Client.claim. run_task. unfold outcome, trace.
  destruct (prepareClaimInstructions E (Client.composer self) dateNow data
              extParams) as [t [e | ixs]]; cbn; [discriminate |].
  destruct (preparedTransaction _ _ _) as [s | prepared] eqn:Hp; cbn;
    [discriminate |].
  destruct (executedTransaction _ _ _ _ _ _ _) as [s | signature] eqn:Hx; cbn;
    [discriminate |].
  intros [= <-]. cbn. exists prepared.
  repeat split; try reflexivity; assumption.
Qed.

Lemma claim_reports_what_it_sent_witness :
  snd (Client.claim sampleExternals (sampleFullClient samplePipeline None [])
         1600000 (sampleClaim 100) (sampleInteract plainOptions))
  = inr {| ITransactionResult.ixs :=
             claimList sampleExternals (sampleClient None []) 1600000
               (sampleClaim 100) (sampleInteract plainOptions)
               (sampleReads None []);
           ITransactionResult.txId := "signature" |}
  /\ exists prepared,
       executedTransaction samplePipeline sampleInvoker
         (tx prepared) (hash prepared) (context prepared)
         (Some "confirmed"%string) (Throttler 1)
       = Got "signature"%string
       /\ fst (Client.claim sampleExternals
                 (sampleFullClient samplePipeline None []) 1600000
                 (sampleClaim 100) (sampleInteract plainOptions))
          = map Compose
              (claimTrace sampleExternals (sampleClient None [])
                 (sampleReads None []))
            ++ [NetPrepareTransaction
                  (claimList sampleExternals (sampleClient None []) 1600000
                     (sampleClaim 100) (sampleInteract plainOptions)
                     (sampleReads None []))
                  (Some 6%N);
                NetSignAndExecute sampleInvoker
                  (tx prepared) (hash prepared) (context prepared)
                  (Some "confirmed"%string) (Throttler 1)].
Proof.
  split; [reflexivity |].
  destruct (claim_reports_what_it_sent sampleExternals
              (sampleFullClient samplePipeline None []) 1600000
              (sampleClaim 100) (sampleInteract plainOptions) _ eq_refl)
    as (prepared & _ & _ & Hx & Ht).
  exists prepared. split; [exact Hx | exact Ht].
Defined.

(** X15: the same for [clawback]: the list reported is the composed one,
    prepared once and sent once after the composer's reads. *)
Theorem clawback_reports_what_it_sent E self data extParams res :
  snd (Client.clawback E self data extParams) = inr res ->
  exists prepared,
    outcome (prepareClawbackInstructions E (Client.composer self) data extParams)
    = inr (ITransactionResult.ixs res)
    /\ preparedTransaction (pipeline (Client.connection self))
         (ITransactionResult.ixs res)
         (publicKey (IInteractSolanaExt.invoker extParams)) = Got prepared
    /\ executedTransaction (pipeline (Client.connection self))
         (IInteractSolanaExt.invoker extParams)
         (tx prepared) (hash prepared) (context prepared)
         (Client.getCommitment self) (Client.sendThrottler self)
       = Got (ITransactionResult.txId res)
    /\ fst (Client.clawback E self data extParams)
       = map Compose
           (trace (prepareClawbackInstructions E (Client.composer self) data
                     extParams))
         ++ [NetPrepareTransaction (ITransactionResult.ixs res)
               (publicKey (IInteractSolanaExt.invoker extParams));
             NetSignAndExecute (IInteractSolanaExt.invoker extParams)
               (tx prepared) (hash prepared) (context prepared)
               (Client.getCommitment self) (Client.sendThrottler self)].
Proof.
  unfold Client.clawback. run_task. unfold outcome, trace.
  destruct (prepareClawbackInstructions E (Client.composer self) data extParams)
    as [t [e | ixs]]; cbn; [discriminate |].
  destruct (preparedTransaction _ _ _) as [s | prepared] eqn:Hp; cbn;
    [discriminate |].
  destruct (executedTransaction _ _ _ _ _ _ _) as [s | signature] eqn:Hx; cbn;
    [discriminate |].
  intros [= <-]. cbn. exists prepared.
  repeat split; try reflexivity; assumption.
Qed.

Lemma clawback_reports_what_it_sent_witness :
  snd (Client.clawback sampleExternals (sampleFullClient samplePipeline None [])
         sampleClawback (sampleInteract plainOptions))
  = inr {| ITransactionResult.ixs :=
             [clawback
                (clawbackAccounts sampleExternals 40%N sampleDistributor 6%N 5%N)
                9%N];
           ITransactionResult.txId := "signature" |}
  /\ exists prepared,
       preparedTransaction samplePipeline
         [clawback
            (clawbackAccounts sampleExternals 40%N sampleDistributor 6%N 5%N)
            9%N]
         (Some 6%N) = Got prepared.
Proof.
  split; [reflexivity |].
  destruct (clawback_reports_what_it_sent sampleExternals
              (sampleFullClient samplePipeline None []) sampleClawback
              (sampleInteract plainOptions) _ eq_refl)
    as (prepared & _ & Hp & _).
  exists prepared. exact Hp.
Defined.

(** X16: when [create] returns, [metadataId] is the base-58 form of the
    distributor address derived from the client's program, the mint and
    [data.version], the address the create-distributor instruction in [ixs]
    sets up; [ixs] is the composed list, prepared once and sent once. *)
Theorem create_reports_the_distributor E toBase58 self dateNow data extParams res :
  snd (Client.create E toBase58 self dateNow data extParams) = inr res ->
  exists mint prepared,
    createMint E data extParams = Some mint
    /\ outcome (prepareCreateInstructions E (Client.composer self) dateNow data
                  extParams)
       = inr (getDistributorPda E (Client.programId self) mint
                (ICreateDistributorData.version data),
              ICreateDistributorResult.ixs res)
    /\ ICreateDistributorResult.metadataId res
       = toBase58 (getDistributorPda E (Client.programId self) mint
                     (ICreateDistributorData.version data))
    /\ preparedTransaction (pipeline (Client.connection self))
         (ICreateDistributorResult.ixs res)
         (publicKey (ICreateSolanaExt.invoker extParams)) = Got prepared
    /\ executedTransaction (pipeline (Client.connection self))
         (ICreateSolanaExt.invoker extParams)
         (tx prepared) (hash prepared) (context prepared)
         (Client.getCommitment self) (Client.sendThrottler self)
       = Got (ICreateDistributorResult.txId res)
    /\ filter isPipelineCall (fst (Client.create E toBase58 self dateNow data
                                     extParams))
       = [NetPrepareTransaction (ICreateDistributorResult.ixs res)
            (publicKey (ICreateSolanaExt.invoker extParams));
          NetSignAndExecute (ICreateSolanaExt.invoker extParams)
            (tx prepared) (hash prepared) (context prepared)
            (Client.getCommitment self) (Client.sendThrottler self)].
Proof.
  unfold Client.create. run_task. unfold outcome, trace.
  destruct (prepareCreateInstructions E (Client.composer self) dateNow data
              extParams) as [t [e | [pda ixs]]] eqn:Hrun; cbn; [discriminate |].
  destruct (preparedTransaction _ _ _) as [s | prepared] eqn:Hp; cbn;
    [discriminate |].
  destruct (executedTransaction _ _ _ _ _ _ _) as [s | signature] eqn:Hx; cbn;
    [discriminate |].
  intros [= <-]. cbn.
  assert (Hout : outcome (prepareCreateInstructions E (Client.composer self)
                            dateNow data extParams) = inr (pda, ixs))
    by (rewrite Hrun; reflexivity).
  destruct (prepareCreateInstructions_inv _ _ _ _ _ _ Hout)
    as (k & mint & ma & tp & w & _ & Hmint & _ & _ & _ & Hres).
  injection Hres as Hpda _.
  exists mint, prepared. unfold createdDistributor in Hpda. cbn in Hpda.
  subst pda.
  repeat split; try reflexivity; try assumption.
  rewrite filter_app.
  assert (Hnone : forall l, filter isPipelineCall (map Compose l) = []).
  { induction l as [| c l IH]; cbn; [reflexivity | exact IH]. }
  rewrite Hnone. reflexivity.
Qed.

Lemma create_reports_the_distributor_witness :
  snd (Client.create sampleExternals sampleToBase58
         (sampleFullClient samplePipeline None []) 1700000000000
         (sampleCreate 1000 2000 500) (sampleCreateExt sampleInvoker false))
  = inr {| ICreateDistributorResult.ixs :=
             createTail sampleExternals (sampleClient None [])
               (sampleCreate 1000 2000 500) 20%N 6%N {| decimals := 9 |} 5%N;
           ICreateDistributorResult.txId := "signature";
           ICreateDistributorResult.metadataId := "distributor-address" |}
  /\ exists mint,
       createMint sampleExternals (sampleCreate 1000 2000 500)
         (sampleCreateExt sampleInvoker false) = Some mint
       /\ "distributor-address"%string
          = sampleToBase58 (getDistributorPda sampleExternals 9%N mint 3).
Proof.
  split; [reflexivity |].
  destruct (create_reports_the_distributor sampleExternals sampleToBase58
              (sampleFullClient samplePipeline None []) 1700000000000
              (sampleCreate 1000 2000 500) (sampleCreateExt sampleInvoker false)
              _ eq_refl)
    as (mint & prepared & Hmint & _ & Hid & _).
  exists mint. split; [exact Hmint | exact Hid].
Defined.

(** X17: a creation whose vesting window is rejected is never submitted:
    whatever the cluster answers, [create] fails and makes no call to prepare,
    sign or send a transaction. *)
Theorem rejected_create_is_never_submitted E toBase58 self dateNow data extParams :
  vestingRejected dateNow data = true ->
  (exists e, snd (Client.create E toBase58 self dateNow data extParams) = inl e)
  /\ existsb isPipelineCall
       (fst (Client.create E toBase58 self dateNow data extParams)) = false.
Proof.
  intros Hv.
  destruct (outcome (prepareCreateInstructions E (Client.composer self) dateNow
                       data extParams)) as [e | res] eqn:Hout.
  - rewrite (create_stops_with_composer E toBase58 self dateNow
               data extParams e Hout). cbn. split; [exists e; reflexivity |].
    apply existsb_pipeline_compose.
  - apply prepareCreateInstructions_inv in Hout
      as (k & mint & ma & tp & w & _ & _ & _ & _ & Hfalse & _).
    rewrite Hv in Hfalse. discriminate Hfalse.
Qed.

Lemma rejected_create_is_never_submitted_witness :
  vestingRejected 1700000000000 (sampleCreate 1000 1400 500) = true
  /\ (exists e,
         snd (Client.create sampleExternals sampleToBase58
                (sampleFullClient samplePipeline None []) 1700000000000
                (sampleCreate 1000 1400 500) (sampleCreateExt sampleInvoker true))
         = inl e)
  /\ existsb isPipelineCall
       (fst (Client.create sampleExternals sampleToBase58
               (sampleFullClient samplePipeline None []) 1700000000000
               (sampleCreate 1000 1400 500) (sampleCreateExt sampleInvoker true)))
     = false.
Proof.
  split; [reflexivity |].
  exact (rejected_create_is_never_submitted sampleExternals sampleToBase58
           (sampleFullClient samplePipeline None []) 1700000000000
           (sampleCreate 1000 1400 500) (sampleCreateExt sampleInvoker true)
           eq_refl).
Defined.

(** X18: the pipeline is not retried and not bypassed.  When the transaction
    cannot be prepared, [claim] fails with that reason and nothing is signed or
    sent; when the submission fails, [claim] fails with the reason of the
    submission, after one attempt. *)
Theorem claim_pipeline_failures E self dateNow data extParams ixs :
  outcome (prepareClaimInstructions E (Client.composer self) dateNow data
             extParams) = inr ixs ->
  (forall reason,
      preparedTransaction (pipeline (Client.connection self)) ixs
        (publicKey (IInteractSolanaExt.invoker extParams)) = Failed reason ->
      snd (Client.claim E self dateNow data extParams) = inl (Upstream reason)
      /\ existsb isSubmission (fst (Client.claim E self dateNow data extParams))
         = false)
  /\ (forall prepared reason,
         preparedTransaction (pipeline (Client.connection self)) ixs
           (publicKey (IInteractSolanaExt.invoker extParams)) = Got prepared ->
         executedTransaction (pipeline (Client.connection self))
           (IInteractSolanaExt.invoker extParams)
           (tx prepared) (hash prepared) (context prepared)
           (Client.getCommitment self) (Client.sendThrottler self)
         = Failed reason ->
         snd (Client.claim E self dateNow data extParams) = inl (Upstream reason)
         /\ List.length
              (filter isSubmission
                 (fst (Client.claim E self dateNow data extParams))) = 1%nat).
Proof.
  assert (Hnone : forall l, filter isSubmission (map Compose l) = []).
  { induction l as [| c l IH]; cbn; [reflexivity | exact IH]. }
  assert (Hnot : forall l, existsb isSubmission (map Compose l) = false).
  { induction l as [| c l IH]; cbn; [reflexivity | exact IH]. }
  unfold Client.claim. run_task. unfold outcome, trace.
  destruct (prepareClaimInstructions E (Client.composer self) dateNow data
              extParams) as [t [e | ixs']]; cbn; [discriminate |].
  intros [= ->]. split.
  - intros reason Hp. rewrite Hp. cbn. split; [reflexivity |].
    rewrite existsb_app, Hnot. reflexivity.
  - intros prepared reason Hp Hx. rewrite Hp. cbn. rewrite Hx. cbn.
    split; [reflexivity |].
    rewrite filter_app, Hnone. reflexivity.
Qed.

Lemma claim_pipeline_failures_witness :
  outcome (prepareClaimInstructions sampleExternals
             (Client.composer (sampleFullClient stalledPipeline None []))
             1600000 (sampleClaim 100) (sampleInteract plainOptions))
  = inr (claimList sampleExternals (sampleClient None []) 1600000
           (sampleClaim 100) (sampleInteract plainOptions) (sampleReads None []))
  /\ snd (Client.claim sampleExternals (sampleFullClient stalledPipeline None [])
            1600000 (sampleClaim 100) (sampleInteract plainOptions))
     = inl (Upstream "no recent blockhash"%string)
  /\ existsb isSubmission
       (fst (Client.claim sampleExternals
               (sampleFullClient stalledPipeline None []) 1600000
               (sampleClaim 100) (sampleInteract plainOptions)))
     = false.
Proof.
  split; [reflexivity |].
  exact (proj1 (claim_pipeline_failures sampleExternals
                  (sampleFullClient stalledPipeline None []) 1600000
                  (sampleClaim 100) (sampleInteract plainOptions) _ eq_refl)
           "no recent blockhash"%string eq_refl).
Defined.

(** ** The batch getters *)

Lemma mapTask_parse_ok {A : Type} (f : A -> Task PublicKey) (l : list A)
    (keys : list PublicKey) :
  Forall2 (fun a key => f a = ([], inr key)) l keys ->
  mapTask f l = ([], inr keys).
Proof.
  induction 1 as [| a key l keys Ha _ IH]; cbn; [reflexivity |].
  rewrite Ha. unfold bindT, retT. cbn. rewrite IH. reflexivity.
Qed.

Lemma mapTask_parse_fails {A : Type} (f : A -> Task PublicKey) (l : list A)
    (e : Exn) :
  (forall a, In a l -> f a = ([], inl e) \/ exists key, f a = ([], inr key)) ->
  (exists a, In a l /\ f a = ([], inl e)) ->
  mapTask f l = ([], inl e).
Proof.
  induction l as [| a l IH]; intros Hall (b & Hin & Hb); [destruct Hin |].
  cbn.
  destruct (Hall a (or_introl eq_refl)) as [Ha | [key Ha]]; rewrite Ha;
    unfold bindT, retT; cbn; [reflexivity |].
  destruct Hin as [-> | Hin]; [congruence |].
  rewrite IH; [reflexivity | | exists b; auto].
  intros a' Hin'. apply Hall. right. exact Hin'.
Qed.

(** The address [getClaims] asks for one entry. *)
Lemma getClaims_entry E pid (d : IGetClaimData.t) :
  (id <- liftT (parsePublicKey E (IGetClaimData.id d)) ;;
   recipient <- liftT (parsePublicKey E (IGetClaimData.recipient d)) ;;
   retT (getClaimantStatusPda E pid id recipient))%task
  = match newPublicKey E (IGetClaimData.id d),
          newPublicKey E (IGetClaimData.recipient d) with
    | Some i, Some r => ([], inr (getClaimantStatusPda E pid i r))
    | _, _ => ([], inl (Upstream invalidPublicKey))
    end.
Proof.
  run_task. run_async.
  destruct (newPublicKey E (IGetClaimData.id d)); cbn; [| reflexivity].
  destruct (newPublicKey E (IGetClaimData.recipient d)); reflexivity.
Qed.

(** X19: [getDistributors] turns the ids into keys and makes one batch fetch
    for exactly these keys, in the order of the ids and with repetitions
    kept, under the client's program; what the fetch answers is returned as
    it is. *)
Theorem getDistributors_asks_in_order E self data keys :
  Forall2 (fun s key => newPublicKey E s = Some key)
    (IGetDistributors.ids data) keys ->
  Client.getDistributors E self data
  = ([NetFetchMultipleDistributors keys (Client.programId self)],
     match distributorAccounts (pipeline (Client.connection self)) keys
             (Client.programId self) with
     | Failed reason => inl (Upstream reason)
     | Got accounts => inr accounts
     end)
  /\ List.length keys = List.length (IGetDistributors.ids data).
Proof.
  intros Hkeys. split; [| symmetry; exact (Forall2_length Hkeys)].
  unfold Client.getDistributors.
  rewrite (mapTask_parse_ok _ _ keys).
  - run_task. cbn. destruct (distributorAccounts _ _ _); reflexivity.
  - induction Hkeys as [| s key l keys' Hs _ IH]; constructor; [| exact IH].
    run_task. run_async. rewrite Hs. reflexivity.
Qed.

Lemma getDistributors_asks_in_order_witness :
  Forall2 (fun s key => newPublicKey sampleExternals s = Some key)
    ["mint"%string; "distributor"%string; "mint"%string] [20%N; 40%N; 20%N]
  /\ Client.getDistributors sampleExternals
       (sampleFullClient samplePipeline None [])
       {| IGetDistributors.ids :=
            ["mint"%string; "distributor"%string; "mint"%string] |}
     = ([NetFetchMultipleDistributors [20%N; 40%N; 20%N] 9%N],
        inr [None; Some sampleDistributor; None]).
Proof.
  assert (Hkeys : Forall2 (fun s key => newPublicKey sampleExternals s = Some key)
                    ["mint"%string; "distributor"%string; "mint"%string]
                    [20%N; 40%N; 20%N]).
  { repeat constructor. }
  split; [exact Hkeys |].
  exact (proj1 (getDistributors_asks_in_order sampleExternals
                  (sampleFullClient samplePipeline None [])
                  {| IGetDistributors.ids :=
                       ["mint"%string; "distributor"%string; "mint"%string] |}
                  [20%N; 40%N; 20%N] Hkeys)).
Defined.

(** X20: [getClaims] makes one batch fetch, for one address per entry in the
    order of the entries: the claim-status address derived from the client's
    program, the entry's [id] as distributor and its [recipient] as
    claimant. *)
Theorem getClaims_asks_in_order E self data addresses :
  Forall2 (fun d address =>
             exists i r,
               newPublicKey E (IGetClaimData.id d) = Some i
               /\ newPublicKey E (IGetClaimData.recipient d) = Some r
               /\ address = getClaimantStatusPda E (Client.programId self) i r)
    data addresses ->
  Client.getClaims E self data
  = ([NetFetchMultipleClaimStatus addresses (Client.programId self)],
     match claimStatusAccounts (pipeline (Client.connection self)) addresses
             (Client.programId self) with
     | Failed reason => inl (Upstream reason)
     | Got accounts => inr accounts
     end)
  /\ List.length addresses = List.length data.
Proof.
  intros Hkeys. split; [| symmetry; exact (Forall2_length Hkeys)].
  unfold Client.getClaims.
  rewrite (mapTask_parse_ok _ _ addresses).
  - run_task. cbn. destruct (claimStatusAccounts _ _ _); reflexivity.
  - induction Hkeys as [| d a l l' (i & r & Hi & Hr & ->) _ IH];
      constructor; [| exact IH].
    rewrite getClaims_entry, Hi, Hr. reflexivity.
Qed.

Lemma getClaims_asks_in_order_witness :
  Forall2 (fun d address =>
             exists i r,
               newPublicKey sampleExternals (IGetClaimData.id d) = Some i
               /\ newPublicKey sampleExternals (IGetClaimData.recipient d) = Some r
               /\ address = getClaimantStatusPda sampleExternals 9%N i r)
    [{| IGetClaimData.id := "distributor"; IGetClaimData.recipient := "mint" |};
     {| IGetClaimData.id := "mint"; IGetClaimData.recipient := "distributor" |}]
    [3320%N; 3140%N]
  /\ Client.getClaims sampleExternals (sampleFullClient samplePipeline None [])
       [{| IGetClaimData.id := "distributor"; IGetClaimData.recipient := "mint" |};
        {| IGetClaimData.id := "mint"; IGetClaimData.recipient := "distributor" |}]
     = ([NetFetchMultipleClaimStatus [3320%N; 3140%N] 9%N], inr [None; None]).
Proof.
  assert (Hkeys :
    Forall2 (fun d address =>
               exists i r,
                 newPublicKey sampleExternals (IGetClaimData.id d) = Some i
                 /\ newPublicKey sampleExternals (IGetClaimData.recipient d)
                    = Some r
                 /\ address = getClaimantStatusPda sampleExternals 9%N i r)
      [{| IGetClaimData.id := "distributor"; IGetClaimData.recipient := "mint" |};
       {| IGetClaimData.id := "mint"; IGetClaimData.recipient := "distributor" |}]
      [3320%N; 3140%N]).
  { constructor; [exists 40%N, 20%N; repeat split |].
    constructor; [exists 20%N, 40%N; repeat split | constructor]. }
  split; [exact Hkeys |].
  exact (proj1 (getClaims_asks_in_order sampleExternals
                  (sampleFullClient samplePipeline None []) _ _ Hkeys)).
Defined.

(** X21: the batch getters are all or nothing.  One id or recipient that is
    no public key, at any position, fails the whole request before anything
    is fetched. *)
Theorem batch_getters_all_or_nothing E self claims distributors :
  ((exists d, In d claims
              /\ (newPublicKey E (IGetClaimData.id d) = None
                  \/ newPublicKey E (IGetClaimData.recipient d) = None)) ->
   Client.getClaims E self claims = ([], inl (Upstream invalidPublicKey)))
  /\ ((exists s, In s (IGetDistributors.ids distributors)
                 /\ newPublicKey E s = None) ->
      Client.getDistributors E self distributors
      = ([], inl (Upstream invalidPublicKey))).
Proof.
  split.
  - intros (d & Hin & Hbad). unfold Client.getClaims.
    rewrite (mapTask_parse_fails _ _ (Upstream invalidPublicKey)).
    + reflexivity.
    + intros a _. rewrite getClaims_entry.
      destruct (newPublicKey E (IGetClaimData.id a)); [| left; reflexivity].
      destruct (newPublicKey E (IGetClaimData.recipient a));
        [right; eexists; reflexivity | left; reflexivity].
    + exists d. split; [exact Hin |]. rewrite getClaims_entry.
      destruct Hbad as [-> | Hr]; [reflexivity |]. rewrite Hr.
      destruct (newPublicKey E (IGetClaimData.id d)); reflexivity.
  - intros (s & Hin & Hbad). unfold Client.getDistributors.
    rewrite (mapTask_parse_fails _ _ (Upstream invalidPublicKey)).
    + reflexivity.
    + intros a _. run_task. run_async.
      destruct (newPublicKey E a); [right; eexists; reflexivity | left; reflexivity].
    + exists s. split; [exact Hin |]. run_task. run_async. rewrite Hbad.
      reflexivity.
Qed.

Lemma batch_getters_all_or_nothing_witness :
  Client.getClaims sampleExternals (sampleFullClient samplePipeline None [])
    [{| IGetClaimData.id := "distributor"; IGetClaimData.recipient := "mint" |};
     {| IGetClaimData.id := "mint"; IGetClaimData.recipient := "nobody" |}]
  = ([], inl (Upstream invalidPublicKey))
  /\ Client.getDistributors sampleExternals
       (sampleFullClient samplePipeline None [])
       {| IGetDistributors.ids := ["distributor"%string; ""%string] |}
     = ([], inl (Upstream invalidPublicKey)).
Proof.
  destruct (batch_getters_all_or_nothing sampleExternals
              (sampleFullClient samplePipeline None [])
              [{| IGetClaimData.id := "distributor";
                  IGetClaimData.recipient := "mint" |};
               {| IGetClaimData.id := "mint";
                  IGetClaimData.recipient := "nobody" |}]
              {| IGetDistributors.ids := ["distributor"%string; ""%string] |})
    as [Hclaims Hdistributors].
  split.
  - apply Hclaims.
    exists {| IGetClaimData.id := "mint"; IGetClaimData.recipient := "nobody" |}.
    split; [right; left; reflexivity | right; reflexivity].
  - apply Hdistributors. exists ""%string.
    split; [right; left; reflexivity | reflexivity].
Defined.



(** ** Construction *)

(** X23: what a constructed client holds.  Its program is the key of the
    [programId] option when that is a non-empty string, and otherwise, for an
    option left out or empty, the key of the table entry of the [cluster]
    option, Mainnet when left out.  Its commitment reads "confirmed" when the
    option is left out; its throttler is the one passed in, and only without
    one is a throttler built, from [sendRate] or from 1. *)
Theorem constructed_client E ICluster Mainnet DISTRIBUTOR_PROGRAM_ID newConnection
    buildSendThrottler (o : IInitOptions.t ICluster) self :
  Client.constructor E ICluster Mainnet DISTRIBUTOR_PROGRAM_ID newConnection
    buildSendThrottler o = inr self ->
  (exists s,
      newPublicKey E s = Some (Client.programId self)
      /\ match IInitOptions.programId o with
         | Some (String c p) => s = String c p
         | Some EmptyString | None =>
             s = DISTRIBUTOR_PROGRAM_ID
                   match IInitOptions.cluster o with
                   | Some c => c
                   | None => Mainnet
                   end
         end)
  /\ Client.getCommitment self
     = match IInitOptions.commitment o with
       | None => Some "confirmed"%string
       | Some (commitmentString c) => Some c
       | Some (commitmentConfig cfg) => ConnectionConfig.commitment cfg
       end
  /\ Client.sendThrottler self
     = match IInitOptions.sendThrottler o, IInitOptions.sendRate o with
       | Some q, _ => q
       | None, Some rate => buildSendThrottler rate
       | None, None => buildSendThrottler 1
       end
  /\ newConnection (IInitOptions.clusterUrl o)
       match IInitOptions.commitment o with
       | Some c => c
       | None => commitmentString "confirmed"%string
       end
     = Got (Client.connection self).
Proof.
  unfold Client.constructor, Client.orDefault.
  destruct (IInitOptions.commitment o) as [given |].
  - destruct (newConnection _ given) as [reason | endpoint] eqn:Hconn;
      [discriminate |].
    destruct (newPublicKey E _) as [key |] eqn:Hkey; [| discriminate].
    intros [= <-]. cbn.
    split; [| split; [| split]].
    + destruct (IInitOptions.programId o) as [[| c p] |]; cbn in Hkey;
        eexists; (split; [exact Hkey | reflexivity]).
    + unfold Client.getCommitment; cbn. destruct given; reflexivity.
    + destruct (IInitOptions.sendThrottler o); [reflexivity |].
      destruct (IInitOptions.sendRate o); reflexivity.
    + reflexivity.
  - destruct (newConnection _ _) as [reason | endpoint] eqn:Hconn;
      [discriminate |].
    destruct (newPublicKey E _) as [key |] eqn:Hkey; [| discriminate].
    intros [= <-]. cbn.
    split; [| split; [| split]].
    + destruct (IInitOptions.programId o) as [[| c p] |]; cbn in Hkey;
        eexists; (split; [exact Hkey | reflexivity]).
    + reflexivity.
    + destruct (IInitOptions.sendThrottler o); [reflexivity |].
      destruct (IInitOptions.sendRate o); reflexivity.
    + reflexivity.
Qed.

Lemma constructed_client_witness :
  Client.constructor sampleExternals SampleCluster sampleMainnet sampleProgramIds
    sampleNewConnection (fun rate => Throttler (Z.to_N rate))
    (sampleInit (Some sampleDevnet) (Some ""%string))
  = inr {| Client.connection :=
             {| reads := sampleConnection (Some sampleDistributor) None [];
                pipeline := samplePipeline |};
           Client.programId := 40%N;
           Client.commitment := commitmentString "confirmed"%string;
           Client.sendThrottler := Throttler 1 |}
  /\ exists s,
       newPublicKey sampleExternals s = Some 40%N
       /\ s = sampleProgramIds sampleDevnet.
Proof.
  split; [reflexivity |].
  exact (proj1 (constructed_client sampleExternals SampleCluster sampleMainnet
                  sampleProgramIds sampleNewConnection
                  (fun rate => Throttler (Z.to_N rate))
                  (sampleInit (Some sampleDevnet) (Some ""%string)) _ eq_refl)).
Defined.

(** X24: a creation reads nothing but the mint and, for the native asset, the
    wrapped account: at most two reads, at most one when not native, and
    never a distributor or a claim-status account. *)
Theorem create_reads_are_bounded E self dateNow data extParams :
  Forall (fun c => match c with
                   | NetGetMintAndProgram _ | NetPrepareWrappedAccount _ => True
                   | _ => False
                   end)
    (trace (prepareCreateInstructions E self dateNow data extParams))
  /\ (List.length (trace (prepareCreateInstructions E self dateNow data extParams))
      <= if ICreateSolanaExt.isNative extParams then 2 else 1)%nat.
Proof.
  unfold prepareCreateInstructions.
  destruct (publicKey (ICreateSolanaExt.invoker extParams)) as [k |];
    [| cbn; split; [constructor | destruct (ICreateSolanaExt.isNative _); auto]].
  run_async.
  destruct (ICreateSolanaExt.isNative extParams).
  - cbn. destruct (mintAndProgram (connection self) (NATIVE_MINT E))
      as [s | [ma tp]]; cbn; [split; [repeat constructor | auto] |].
    split_numbers; try solve [split; [repeat constructor | auto]].
    destruct (wrappedAccount _ _ _) as [s | w]; cbn;
      [split; [repeat constructor | auto] |].
    destruct (_ && _); cbn; split; repeat constructor.
  - destruct (newPublicKey E (ICreateDistributorData.mint data)) as [m |]; cbn;
      [| split; [constructor | auto]].
    destruct (mintAndProgram (connection self) m) as [s | [ma tp]]; cbn;
      [split; [repeat constructor | auto] |].
    split_numbers; try solve [split; [repeat constructor | auto]].
    destruct (_ && _); cbn; split; repeat constructor.
Qed.
